(** * The retrieval-augmented-generation pipeline of [app/]

    A shallow embedding of the planner, the retriever, the validator and
    the orchestrating pipeline, and the properties of their results.

    Conventions of the model.
    - A Python [str] is a [string] of ASCII characters; [lower] and [split]
      below agree with [str.lower] and [str.split] on such text.
    - A Python [float] is an exact rational ([Q]): scores are compared and
      blended without rounding, and there is no NaN.
    - A Python [set] of strings is a [gset string]; a [list] is a [list].
    - The completion service, the embedding model and the vector store are
      outside the program: their answers are inputs of the model. *)

From Stdlib Require Import ZArith QArith Lqa String Ascii Permutation Sorted Lia.
From stdpp Require Import base list strings gmap pretty.

Local Open Scope string_scope.
Local Open Scope list_scope.

(** ** Python primitives the code relies on *)

Module Py.

(** The ASCII characters for which [str.isspace] holds: TAB to CR and
    FS to SPACE. *)
Definition is_space (c : ascii) : bool :=
  let n := nat_of_ascii c in
  ((9 <=? n)%nat && (n <=? 13)%nat) || ((28 <=? n)%nat && (n <=? 32)%nat).

Definition lower_char (c : ascii) : ascii :=
  let n := nat_of_ascii c in
  if ((65 <=? n)%nat && (n <=? 90)%nat) then ascii_of_nat (n + 32) else c.

(** [s.lower()] *)
Fixpoint lower (s : string) : string :=
  match s with
  | EmptyString => EmptyString
  | String c rest => String (lower_char c) (lower rest)
  end.

Definition flush (word : string) : list string :=
  match word with
  | EmptyString => []
  | _ => [word]
  end.

(** The scan of [s.split()]: [word] holds the characters of the token
    being read; a whitespace character ends it, and empty tokens are
    never produced. *)
Fixpoint split_from (word s : string) : list string :=
  match s with
  | EmptyString => flush word
  | String c rest =>
      if is_space c then flush word ++ split_from EmptyString rest
      else split_from (word +:+ String c EmptyString) rest
  end.

(** [s.split()] *)
Definition split (s : string) : list string := split_from EmptyString s.

(** [l[:n]] for a Python integer [n]: a negative bound counts from the
    end of the list. *)
Definition slice_to {A : Type} (n : Z) (l : list A) : list A :=
  if (0 <=? n)%Z then take (Z.to_nat n) l
  else take (length l - Z.to_nat (- n)) l.

(** [l.sort(key=key, reverse=True)] on rational keys. Python's sort is
    stable, also when reversed: the result is the one list that is in
    descending key order and keeps elements of equal key in their
    original order. It is computed here by insertion from the right:
    [x], which stood before every element of [l], goes in front of the
    first element whose key does not exceed its own. *)
Fixpoint insert_desc {A : Type} (key : A -> Q) (x : A) (l : list A) : list A :=
  match l with
  | [] => [x]
  | y :: ys =>
      if Qle_bool (key y) (key x) then x :: y :: ys
      else y :: insert_desc key x ys
  end.

Definition sort_desc {A : Type} (key : A -> Q) (l : list A) : list A :=
  foldr (insert_desc key) [] l.

(** [max(a, b)] and [min(a, b)] of two numbers: the first argument
    unless the second is strictly greater (smaller). *)
Definition Qlt_bool (a b : Q) : bool := negb (Qle_bool b a).
Definition max2 (a b : Q) : Q := if Qlt_bool a b then b else a.
Definition min2 (a b : Q) : Q := if Qlt_bool b a then b else a.

End Py.

(** ** Data model *)

(** [app/agents/planner.py], [SubQuery], with the field types the
    dataclass declares. *)
Record SubQuery := mkSubQuery {
  text : string;
  priority : Z
}.

(** [app/agents/retriever.py], [RetrievedChunk] *)
Record RetrievedChunk := mkRetrievedChunk {
  content : string;
  document : string;
  section : string;
  relevance_score : Q;
  chunk_id : string
}.

(** [app/agents/validator.py], [ValidatedChunk] *)
Record ValidatedChunk := mkValidatedChunk {
  chunk : RetrievedChunk;
  confidence : Q;
  reasoning : string
}.

(** ** The retriever, [app/agents/retriever.py] *)

Module Retriever.

(** The metadata dictionary of a hit: the two keys the retriever reads,
    each present or not. *)
Record Metadata := mkMetadata {
  md_document : option string;
  md_section : option string
}.

(** What [VectorStore.query] hands back: a dictionary whose four
    entries are lists holding one inner list per query embedding. [None]
    stands for a key that is absent or bound to [None]; a distance may
    itself be [None]. *)
Record QueryResult := mkQueryResult {
  documents : option (list (list string));
  metadatas : option (list (list Metadata));
  ids : option (list (list string));
  distances : option (list (list (option Q)))
}.

(** [results.get(k)[0] if results.get(k) else default]: an absent entry
    and an empty outer list are both falsy. *)
Definition first_or {A : Type} (o : option (list A)) (default : A) : A :=
  match o with
  | Some (x :: _) => x
  | _ => default
  end.

Definition Hit : Type := string * Metadata * string * option Q.

(** [zip(documents, metadatas, ids, distances)] stops at the shortest. *)
Fixpoint zip4 (ds : list string) (ms : list Metadata) (ks : list string)
    (xs : list (option Q)) : list Hit :=
  match ds, ms, ks, xs with
  | d :: ds', m :: ms', k :: ks', x :: xs' => (d, m, k, x) :: zip4 ds' ms' ks' xs'
  | _, _, _, _ => []
  end.

(** The hits the inner loop walks over for one result dictionary. *)
Definition hits (results : QueryResult) : list Hit :=
  match documents results with
  | Some (docs :: _) =>
      let n := length docs in
      zip4 docs
           (first_or (metadatas results) (replicate n (mkMetadata None None)))
           (first_or (ids results) (replicate n ""))
           (first_or (distances results) (replicate n (Some 0%Q)))
  | _ => []
  end.

(** [1 - (distance / 2) if distance is not None else 0.5] *)
Definition similarity (distance : option Q) : Q :=
  match distance with
  | Some d => (1 - d / 2)%Q
  | None => 5 # 10
  end.

(** [max(0.0, min(1.0, similarity))] *)
Definition score (distance : option Q) : Q :=
  Py.max2 0%Q (Py.min2 1%Q (similarity distance)).

Definition make_chunk (h : Hit) : RetrievedChunk :=
  let '(doc, metadata, doc_id, distance) := h in
  {| content := doc;
     document := default "unknown" (md_document metadata);
     section := default "unknown" (md_section metadata);
     relevance_score := score distance;
     chunk_id := doc_id |}.

Definition hit_id (h : Hit) : string := let '(_, _, doc_id, _) := h in doc_id.
Definition hit_distance (h : Hit) : option Q := let '(_, _, _, distance) := h in distance.

(** The state of the two loops: [all_chunks] and [seen_ids]. *)
Definition State : Type := list RetrievedChunk * gset string.

(** One turn of the inner loop. *)
Definition visit (st : State) (h : Hit) : State :=
  let '(_, _, doc_id, _) := h in
  if decide (doc_id ∈ st.2) then st
  else (st.1 ++ [make_chunk h], {[doc_id]} ∪ st.2).

Section WithStore.

(** [vector_store.query(embed_single(text), n_results=top_k)] *)
Variable search : string -> Z -> QueryResult.

Definition visit_sub_query (top_k : Z) (st : State) (sq : SubQuery) : State :=
  fold_left visit (hits (search (text sq) top_k)) st.

(** The hits of all sub-queries, in the order the loops meet them. *)
Definition encountered (sub_queries : list SubQuery) (top_k : Z) : list Hit :=
  concat (map (fun sq => hits (search (text sq) top_k)) sub_queries).

(** [all_chunks] when the outer loop ends. *)
Definition collect (sub_queries : list SubQuery) (top_k : Z) : list RetrievedChunk :=
  (fold_left (visit_sub_query top_k) sub_queries ([], ∅)).1.

Definition retrieve_parallel (sub_queries : list SubQuery) (top_k : Z)
    : list RetrievedChunk :=
  Py.sort_desc relevance_score (collect sub_queries top_k).

Definition retrieve_single (query : string) (top_k : Z) : list RetrievedChunk :=
  retrieve_parallel [mkSubQuery query 1] top_k.

End WithStore.

End Retriever.

(** ** Configuration, [app/config.py] *)

Module Config.

(** The two settings the modelled code reads. *)
Record Settings := mkSettings {
  validation_threshold : Q;
  synthesizer_model : string
}.

(** The values [Settings] declares. *)
Definition defaults : Settings :=
  {| validation_threshold := 6 # 10;
     synthesizer_model := "llama-3.1-70b-versatile" |}.

End Config.

(** ** The validator, [app/agents/validator.py] *)

Module Validator.

(** [set(s.lower().split())] *)
Definition word_set (s : string) : gset string :=
  list_to_set (Py.split (Py.lower s)).

(** [overlap / len(query_words) if query_words else 0] with
    [overlap = len(query_words.intersection(chunk_words))], the
    expression [_validate_single] and [_topic_coverage] both compute. *)
Definition overlap_coverage (query_words chunk_words : gset string) : Q :=
  let overlap := size (query_words ∩ chunk_words) in
  match size query_words with
  | O => 0%Q
  | S _ => (inject_Z (Z.of_nat overlap) / inject_Z (Z.of_nat (size query_words)))%Q
  end.

Definition _validate_single (c : RetrievedChunk) (query : string) : Q * string :=
  let query_words := word_set query in
  let chunk_words := word_set (content c) in
  let coverage := overlap_coverage query_words chunk_words in
  let confidence := ((coverage * (5 # 10)) + (relevance_score c * (5 # 10)))%Q in
  let reasoning :=
    if Py.Qlt_bool (8 # 10) confidence then "High semantic relevance and keyword overlap"
    else if Py.Qlt_bool (6 # 10) confidence then "Moderate relevance, likely useful"
    else if Py.Qlt_bool (4 # 10) confidence then "Low relevance, may be tangential"
    else "Poor relevance, likely not useful" in
  (confidence, reasoning).

Definition _topic_coverage (c : RetrievedChunk) (sub_query : string) : bool :=
  let query_words := word_set sub_query in
  let chunk_words := word_set (content c) in
  let coverage_ratio := overlap_coverage query_words chunk_words in
  Py.Qlt_bool (3 # 10) coverage_ratio.

(** [__init__]: the threshold the agent filters with. The argument
    defaults to [0.0]. *)
Definition init (settings : Config.Settings) (min_confidence : option Q) : Q :=
  let arg := default 0%Q min_confidence in
  if Py.Qlt_bool 0%Q arg then arg else Config.validation_threshold settings.

Section WithThreshold.

(** [self.min_confidence] *)
Variable min_confidence : Q.

(** One turn of the loop that validates each chunk. *)
Definition keep (original_query : string) (validated : list ValidatedChunk)
    (c : RetrievedChunk) : list ValidatedChunk :=
  let '(conf, why) := _validate_single c original_query in
  if Qle_bool min_confidence conf
  then validated ++ [mkValidatedChunk c conf why]
  else validated.

(** The coverage loops: every sub-query a chunk covers is added. *)
Definition mark (sub_queries : list SubQuery) (covered_topics : gset string)
    (vc : ValidatedChunk) : gset string :=
  fold_left
    (fun covered sq =>
       if _topic_coverage (chunk vc) (text sq) then {[text sq]} ∪ covered else covered)
    sub_queries covered_topics.

Definition note_missing (covered_topics : gset string) (missing_topics : list string)
    (sq : SubQuery) : list string :=
  if decide (text sq ∈ covered_topics) then missing_topics
  else missing_topics ++ [text sq].

Definition validate_batch (chunks : list RetrievedChunk) (sub_queries : list SubQuery)
    (original_query : string) : list ValidatedChunk * list string * bool :=
  match chunks with
  | [] => ([], map text sub_queries, true)
  | _ :: _ =>
      let validated :=
        Py.sort_desc confidence (fold_left (keep original_query) chunks []) in
      let covered_topics := fold_left (mark sub_queries) (take 5 validated) ∅ in
      let missing_topics := fold_left (note_missing covered_topics) sub_queries [] in
      let high_priority_missing :=
        existsb
          (fun sq => bool_decide (text sq ∈ missing_topics) && (priority sq =? 1)%Z)
          sub_queries in
      let needs_reretrieval := (length validated <? 3)%nat || high_priority_missing in
      (validated, missing_topics, needs_reretrieval)
  end.

End WithThreshold.

End Validator.

(** ** The response models, [app/models.py] *)

Module Models.

Record Source := mkSource {
  document : string;
  section : string;
  relevance_score : Q;
  content_preview : string
}.

Record QueryMetadata := mkQueryMetadata {
  processing_time_ms : Z;
  tokens_used : Z;
  confidence : Q;
  sub_queries : list string;
  model_used : string
}.

(** The [ge=0.0, le=1.0] constraint of a field. *)
Definition in_unit (x : Q) : bool := Qle_bool 0%Q x && Qle_bool x 1%Q.

(** Constructing a [Source]: pydantic raises unless the score is in
    range. *)
Definition new_source (doc sec : string) (score : Q) (preview : string)
    : option Source :=
  if in_unit score then Some (mkSource doc sec score preview) else None.

Definition new_metadata (ms tokens : Z) (conf : Q) (subs : list string)
    (model : string) : option QueryMetadata :=
  if in_unit conf then Some (mkQueryMetadata ms tokens conf subs model) else None.

End Models.

(** ** The orchestrator, [app/core/pipeline.py] *)

Module Pipeline.

(** [RAGResult] *)
Record RAGResult := mkRAGResult {
  answer : string;
  sources : list Models.Source;
  metadata : Models.QueryMetadata
}.

Definition _expand_queries (sub_queries : list SubQuery) : list SubQuery :=
  fold_left
    (fun expanded sq =>
       (expanded ++ [sq])
         ++ [mkSubQuery ("guide for " +:+ text sq) (priority sq + 1)])
    sub_queries [].

(** The state of the loop of [_deduplicate_validated]: [unique] and
    [seen_ids]. *)
Definition dedup_step (st : list ValidatedChunk * gset string) (vc : ValidatedChunk)
    : list ValidatedChunk * gset string :=
  if decide (chunk_id (chunk vc) ∈ st.2) then st
  else (st.1 ++ [vc], {[chunk_id (chunk vc)]} ∪ st.2).

Definition _deduplicate_validated (validated : list ValidatedChunk)
    : list ValidatedChunk :=
  (fold_left dedup_step validated ([], ∅)).1.

(** [sum(xs)] over integers and over rationals *)
Definition sum_Z (xs : list Z) : Z := fold_left Z.add xs 0%Z.
Definition sum_Q (xs : list Q) : Q := fold_left Qplus xs 0%Q.

Definition len (s : string) : Z := Z.of_nat (String.length s).

Definition _estimate_tokens (query answer : string) (validated : list ValidatedChunk)
    : Z :=
  let query_tokens := (len query / 4)%Z in
  let answer_tokens := (len answer / 4)%Z in
  let context_tokens := (sum_Z (map (fun vc => len (content (chunk vc))) validated) / 4)%Z in
  (query_tokens + answer_tokens + context_tokens + 100)%Z.

Definition _calculate_confidence (validated : list ValidatedChunk) : Q :=
  match validated with
  | [] => 0%Q
  | _ :: _ =>
      let top_confidences := map confidence (take 3 validated) in
      (sum_Q top_confidences / inject_Z (Z.of_nat (length top_confidences)))%Q
  end.

(** The entry of the retry pass for one additional chunk. *)
Definition retried (c : RetrievedChunk) : ValidatedChunk :=
  mkValidatedChunk c (relevance_score c) "Retry retrieval".

(** The [Source] built for one validated chunk. *)
Definition preview (s : string) : string :=
  if (200 <? String.length s)%nat then String.substring 0 200 s +:+ "..." else s.

Definition source_of (vc : ValidatedChunk) : option Models.Source :=
  Models.new_source (document (chunk vc)) (section (chunk vc)) (confidence vc)
    (preview (content (chunk vc))).

Section WithServices.

Variable settings : Config.Settings.

(** [self.planner.plan(query)] once it has returned; the lists the
    planner can return are described in [Planner] below. *)
Variable plan : string -> list SubQuery.

(** [vector_store.query(embed_single(text), n_results=top_k)] *)
Variable search : string -> Z -> Retriever.QueryResult.

(** [await self.synthesizer.synthesize(query, chunks)] *)
Variable synthesize : string -> list ValidatedChunk -> string.

(** The wall-clock time of the run, in milliseconds. *)
Variable processing_time : Z.

(** [self.validator = ValidatorAgent()] *)
Definition min_confidence : Q := Validator.init settings None.

(** Steps 1 to 3b of [process]: the sub-queries and the validated list as
    it stands when synthesis starts. *)
Definition validated_chunks (query : string) : list SubQuery * list ValidatedChunk :=
  let sub_queries := plan query in
  let chunks := Retriever.retrieve_parallel search sub_queries 5 in
  let '(validated, missing_topics, needs_reretrieval) :=
    Validator.validate_batch min_confidence chunks sub_queries query in
  if needs_reretrieval then
    let expanded_queries := _expand_queries sub_queries in
    let additional_chunks := Retriever.retrieve_parallel search expanded_queries 3 in
    (sub_queries, _deduplicate_validated (validated ++ map retried additional_chunks))
  else (sub_queries, validated).

(** [process]: [None] stands for the validation error a model
    constructor raises. *)
Definition process (query : string) (max_sources : Z) : option RAGResult :=
  let '(sub_queries, validated) := validated_chunks query in
  let shown := Py.slice_to max_sources validated in
  let ans := synthesize query shown in
  srcs ← mapM source_of shown;
  meta ← Models.new_metadata processing_time
            (_estimate_tokens query ans validated)
            (_calculate_confidence validated)
            (map text sub_queries)
            (Config.synthesizer_model settings);
  Some (mkRAGResult ans srcs meta).

End WithServices.

End Pipeline.

(** ** The planner, [app/agents/planner.py] *)

Module Planner.

(** A decoded JSON document, as [json.loads] builds it. An object is the
    list of its entries in insertion order, each key once. *)
#[local] Unset Elimination Schemes.
Inductive json :=
| JNull
| JBool (b : bool)
| JInt (z : Z)
| JFloat (q : Q)
| JStr (s : string)
| JArr (items : list json)
| JObj (entries : list (string * json)).
#[local] Set Elimination Schemes.

(** [SubQuery] as the planner fills it: the dataclass does not check its
    fields, which hold whatever the decoded document held. *)
Record SubQuery := mkSubQuery {
  text : json;
  priority : json
}.

(** What the call to the completion service comes to: an exception, or
    the [content] of the first choice, which may be [None]. *)
Inductive Completion :=
| Raises
| Content (c : option string).

(** [d.get(key)] *)
Fixpoint get (key : string) (entries : list (string * json)) : option json :=
  match entries with
  | [] => None
  | (k, v) :: rest => if String.eqb k key then Some v else get key rest
  end.

(** The truth value of a decoded value. *)
Definition truthy (v : json) : bool :=
  match v with
  | JNull => false
  | JBool b => b
  | JInt z => negb (z =? 0)%Z
  | JFloat q => negb (Qeq_bool q 0)
  | JStr s => negb (String.eqb s "")
  | JArr items => match items with [] => false | _ => true end
  | JObj entries => match entries with [] => false | _ => true end
  end.

(** [sub_queries_list] *)
Definition candidates (sub_queries_data : json) : json :=
  match sub_queries_data with
  | JArr _ => sub_queries_data
  | JObj entries =>
      match get "sub_queries" entries with
      | Some v => v
      | None =>
          match get "queries" entries with
          | Some v => v
          | None =>
              match get "results" entries with
              | Some v => v
              | None => JArr (map snd entries)
              end
          end
      end
  | _ => JArr []
  end.

Fixpoint chars (s : string) : list json :=
  match s with
  | EmptyString => []
  | String c rest => JStr (String c EmptyString) :: chars rest
  end.

(** What [for sq in v] walks over: the items of a list, the characters
    of a string, the keys of an object; [None] is the [TypeError] of a
    value that cannot be iterated. *)
Definition iterate (v : json) : option (list json) :=
  match v with
  | JArr items => Some items
  | JStr s => Some (chars s)
  | JObj entries => Some (map (fun kv => JStr kv.1) entries)
  | _ => None
  end.

(** One turn of the conversion loop. *)
Definition convert (sub_queries : list SubQuery) (sq : json) : list SubQuery :=
  match sq with
  | JObj entries =>
      let txt :=
        match get "query" entries with
        | Some v => v
        | None => default (JStr "") (get "text" entries)
        end in
      let prio := default (JInt 1) (get "priority" entries) in
      if truthy txt then sub_queries ++ [mkSubQuery txt prio] else sub_queries
  | _ => sub_queries
  end.

Definition single (query : string) : list SubQuery :=
  [mkSubQuery (JStr query) (JInt 1)].

Section WithDecoder.

(** [json.loads]; [None] is [JSONDecodeError]. *)
Variable loads : string -> option json.

Definition plan (query : string) (reply : Completion) : list SubQuery :=
  match reply with
  | Raises => single query
  | Content None => single query
  | Content (Some content) =>
      match loads content with
      | None => single query
      | Some sub_queries_data =>
          match iterate (candidates sub_queries_data) with
          | None => single query
          | Some items =>
              match fold_left convert items [] with
              | [] => single query
              | sub_queries => sub_queries
              end
          end
      end
  end.

End WithDecoder.

End Planner.

(** ** Reference formulations

    Definitions that follow the wording of the specification rather than
    the code; the theorems below relate the code to them. *)

Module Spec.

(** A list is in descending order of [key]: no element has a smaller key
    than one that comes after it. *)
Definition descending {A : Type} (key : A -> Q) (l : list A) : Prop :=
  ∀ (i j : nat) (a b : A),
    (i < j)%nat → l !! i = Some a → l !! j = Some b → (key b <= key a)%Q.

(** [a] may stand in front of [b] in a list in descending order. *)
Definition before {A : Type} (key : A -> Q) (a b : A) : Prop := (key b <= key a)%Q.

(** The elements of [l] whose key is [q], in the order of [l]. *)
Definition with_key {A : Type} (key : A -> Q) (q : Q) (l : list A) : list A :=
  List.filter (fun a => Qeq_bool (key a) q) l.

(** [l] deduplicated by [k], first occurrence wins: an element is kept,
    and every later element with its key is dropped. *)
Fixpoint first_by {A : Type} (k : A -> string) (l : list A) : list A :=
  match l with
  | [] => []
  | x :: rest =>
      x :: List.filter (fun y => negb (String.eqb (k y) (k x))) (first_by k rest)
  end.

(** The [chunk_id] underneath a validated chunk. *)
Definition underlying_id (vc : ValidatedChunk) : string := chunk_id (chunk vc).

(** The entry [validate_batch] makes for a chunk it keeps. *)
Definition validated_entry (original_query : string) (c : RetrievedChunk)
    : ValidatedChunk :=
  mkValidatedChunk c (Validator._validate_single c original_query).1
    (Validator._validate_single c original_query).2.

(** [clamp(x, lo, hi)] *)
Definition clamp (x lo hi : Q) : Q :=
  if Qlt_le_dec x lo then lo else if Qlt_le_dec hi x then hi else x.

(** The case-insensitive whitespace tokens of a text. *)
Definition tokens (s : string) : list string := map Py.lower (Py.split s).

(** [|Q ∩ C| / |Q|], and 0 when [Q] is empty, for the token sets [Q] of
    the query and [C] of the chunk: the fraction of the distinct words of
    the query that occur in the chunk. *)
Definition overlap_ratio (query chunk_text : string) : Q :=
  let q := remove_dups (tokens query) in
  let found := List.filter (fun w => bool_decide (w ∈ tokens chunk_text)) q in
  match q with
  | [] => 0%Q
  | _ :: _ => (inject_Z (Z.of_nat (length found)) / inject_Z (Z.of_nat (length q)))%Q
  end.

(** An entry with a non-empty text field: an object whose ["query"]
    value, or without that key its ["text"] value, is truthy. *)
Definition has_text (entry : Planner.json) : Prop :=
  ∃ entries v,
    entry = Planner.JObj entries
    ∧ (Planner.get "query" entries = Some v
       ∨ (Planner.get "query" entries = None ∧ Planner.get "text" entries = Some v))
    ∧ Planner.truthy v = true.

(** The decoded data yields no entry with a non-empty text field. *)
Definition no_text_entry (data : Planner.json) : Prop :=
  ∀ items, Planner.iterate (Planner.candidates data) = Some items →
           ∀ entry, entry ∈ items → ¬ has_text entry.

(** Planning failed: the service raised, the content is [None] or cannot
    be decoded, or the decoded data has no usable entry. *)
Definition planning_failed (loads : string -> option Planner.json)
    (reply : Planner.Completion) : Prop :=
  reply = Planner.Raises
  ∨ reply = Planner.Content None
  ∨ ∃ content, reply = Planner.Content (Some content)
       ∧ (loads content = None
          ∨ ∃ data, loads content = Some data ∧ no_text_entry data).

(** A valid priority value: an integer from 1 to 3. *)
Definition well_formed_priority (v : Planner.json) : bool :=
  match v with
  | Planner.JInt z => (1 <=? z)%Z && (z <=? 3)%Z
  | _ => false
  end.

End Spec.

(** ** Sample inputs, used to exercise the theorems *)

Module Sample.

Definition docker_chunk : RetrievedChunk :=
  mkRetrievedChunk "Build the Docker image and push it" "deploy.md" "Docker" (9 # 10) "c1".

Definition docker_query : SubQuery := mkSubQuery "docker image build" 1.

(** A store without documents. *)
Definition empty_store (query_text : string) (top_k : Z) : Retriever.QueryResult :=
  Retriever.mkQueryResult (Some [[]]) (Some [[]]) (Some [[]]) (Some [[]]).

(** A store that answers the rephrased sub-query with a closer document
    than the one it answers the plain sub-query with. *)
Definition small_store (query_text : string) (top_k : Z) : Retriever.QueryResult :=
  if String.eqb query_text "deploy docker" then
    Retriever.mkQueryResult
      (Some [["deploy the docker image"]])
      (Some [[Retriever.mkMetadata (Some "deploy.md") (Some "Docker")]])
      (Some [["a"]])
      (Some [[Some (4 # 10)]])
  else
    Retriever.mkQueryResult
      (Some [["a guide"]])
      (Some [[Retriever.mkMetadata (Some "guide.md") None]])
      (Some [["b"]])
      (Some [[Some 0%Q]]).

(** A planner that returns the query as its only sub-query. *)
Definition single_plan (query : string) : list SubQuery := [mkSubQuery query 1].

(** A decoder that finds one entry whose priority is not a number. *)
Definition odd_priority_entry : Planner.json :=
  Planner.JObj [("query", Planner.JStr "AWS ECS setup"); ("priority", Planner.JStr "high")].

Definition odd_loads (content : string) : option Planner.json :=
  Some (Planner.JObj [("sub_queries", Planner.JArr [odd_priority_entry])]).

(** A decoder that finds entries without text. *)
Definition blank_loads (content : string) : option Planner.json :=
  Some (Planner.JArr [Planner.JObj [("priority", Planner.JInt 2)];
                      Planner.JObj [("query", Planner.JStr "")];
                      Planner.JStr "deploy"]).

End Sample.

(** ** The synthesizer, [app/agents/synthesizer.py] *)

Module Synthesizer.

(** The newline character. *)
Definition nl : string := String "010"%char EmptyString.

Section WithFormat.

(** [f"{x:.2f}"]: the rendering of a score with two decimals. *)
Variable two_decimals : Q -> string.

(** The text [_build_context] appends for the chunk numbered [i]. *)
Definition context_part (i : nat) (vc : ValidatedChunk) : string :=
  "[" +:+ pretty i +:+ "] Document: " +:+ document (chunk vc)
    +:+ " (Section: " +:+ section (chunk vc) +:+ ")" +:+ nl
    +:+ "Relevance: " +:+ two_decimals (confidence vc) +:+ nl
    +:+ "Content: " +:+ content (chunk vc) +:+ nl.

(** The numbering starts at 1, and only the first five chunks are
    used. *)
Definition _build_context (validated_chunks : list ValidatedChunk) : string :=
  String.concat (nl +:+ "---" +:+ nl)
    (imap (fun i vc => context_part (S i) vc) (take 5 validated_chunks)).

End WithFormat.

End Synthesizer.

(** ** The service layer, [app/main.py] *)

Module Main.

(** The double quote character. *)
Definition dq : string := String "034"%char EmptyString.

Definition quoted (s : string) : string := dq +:+ s +:+ dq.

(** The value a token event carries: the word and one space. *)
Definition token_payload (word : string) : string := word +:+ " ".

Definition event (key value : string) : string :=
  "data: {" +:+ quoted key +:+ ": " +:+ value +:+ "}"
    +:+ Synthesizer.nl +:+ Synthesizer.nl.

Definition token_event (word : string) : string :=
  event "token" (quoted (token_payload word)).

Definition done_event : string := event "done" "true".

Definition error_event (message : string) : string :=
  event "error" (quoted message).

(** What [await pipeline.process(...)] comes to inside the generator. *)
Inductive Outcome :=
| Raised (message : string)
| Returned (result : Pipeline.RAGResult).

Section WithRendering.

(** The text Python puts for the list of source dictionaries and for the
    metadata dictionary inside the f-strings. *)
Variable render_sources : list Models.Source -> string.
Variable render_metadata : Models.QueryMetadata -> string.

(** The events [event_generator] of [query_stream] yields, in order. *)
Definition event_generator (outcome : Outcome) : list string :=
  match outcome with
  | Returned result =>
      let words := Py.split (Pipeline.answer result) in
      map token_event words
        ++ [event "sources" (render_sources (Pipeline.sources result));
            event "metadata" (render_metadata (Pipeline.metadata result));
            done_event]
  | Raised message => [error_event message]
  end.

End WithRendering.

(** [Document] of [app/core/document_loader.py]; of the metadata
    dictionary only the ["title"] entry is read, which may be absent. *)
Record Document := mkDocument {
  path : string;
  doc_content : string;
  title : option string
}.

Definition is_nl (c : ascii) : bool := Ascii.eqb c "010"%char.

(** [s.split('\n\n')]: [part] holds the characters read since the last
    separator; two newlines in a row end it. *)
Fixpoint split_paragraphs_from (part s : string) : list string :=
  match s with
  | EmptyString => [part]
  | String c rest =>
      match rest with
      | String c' rest' =>
          if is_nl c && is_nl c' then part :: split_paragraphs_from EmptyString rest'
          else split_paragraphs_from (part +:+ String c EmptyString) rest
      | EmptyString => [part +:+ String c EmptyString]
      end
  end.

Definition split_paragraphs (s : string) : list string :=
  split_paragraphs_from EmptyString s.

(** [s.lstrip()], [s.rstrip()] and [s.strip()] *)
Fixpoint lstrip (s : string) : string :=
  match s with
  | EmptyString => EmptyString
  | String c rest => if Py.is_space c then lstrip rest else s
  end.

Fixpoint rstrip (s : string) : string :=
  match s with
  | EmptyString => EmptyString
  | String c rest =>
      match rstrip rest with
      | EmptyString => if Py.is_space c then EmptyString else String c EmptyString
      | kept => String c kept
      end
  end.

Definition strip (s : string) : string := rstrip (lstrip s).

(** The metadata dictionary of a chunk. *)
Record ChunkMetadata := mkChunkMetadata {
  cm_document : string;
  cm_section : string;
  cm_paragraph : nat
}.

(** [enumerate(l)] *)
Definition enumerate {A : Type} (l : list A) : list (nat * A) := imap pair l.

(** [all_chunks] and [all_metadatas] of [ingest_documents_internal]. *)
Definition Chunks : Type := list string * list ChunkMetadata.

(** One turn of the loop over the paragraphs of [doc]. *)
Definition add_paragraph (doc : Document) (st : Chunks) (ip : nat * string) : Chunks :=
  let '(i, para) := ip in
  if (String.length (strip para) <? 50)%nat then st
  else (st.1 ++ [para],
        st.2 ++ [mkChunkMetadata (path doc) (default "unknown" (title doc)) i]).

Definition add_document (st : Chunks) (doc : Document) : Chunks :=
  let paragraphs := split_paragraphs (doc_content doc) in
  fold_left (add_paragraph doc) (enumerate paragraphs) st.

Definition chunk_documents (documents : list Document) : Chunks :=
  fold_left add_document documents ([], []).

Section WithHash.

(** [hashlib.md5(s.encode()).hexdigest()] *)
Variable md5_hex : string -> string.

(** The state of the loop that removes duplicates: [seen_content],
    [unique_chunks] and [unique_metadatas]. *)
Definition unique_step (st : gset string * list string * list ChunkMetadata)
    (cm : string * ChunkMetadata) : gset string * list string * list ChunkMetadata :=
  let '(chunk, metadata) := cm in
  let content_hash := md5_hex (strip chunk) in
  if decide (content_hash ∈ st.1.1) then st
  else ({[content_hash]} ∪ st.1.1, st.1.2 ++ [chunk], st.2 ++ [metadata]).

(** The chunks and metadatas [ingest_documents_internal] embeds and
    stores for the loaded documents. *)
Definition prepare_chunks (documents : list Document) : Chunks :=
  let '(all_chunks, all_metadatas) := chunk_documents documents in
  let '(_, unique_chunks, unique_metadatas) :=
    fold_left unique_step (zip all_chunks all_metadatas) (∅, [], []) in
  (unique_chunks, unique_metadatas).

End WithHash.

End Main.

(** ** The document loader, [app/core/document_loader.py] *)

Module DocumentLoader.

(** A section dictionary of [read_markdown_file]: the first one, made
    before the loop, has no ["level"] entry. *)
Record Section_ := mkSection {
  sec_title : string;
  sec_content : string;
  sec_level : option nat
}.

(** [s.split('\n')]: [line] holds the characters read since the last
    newline. *)
Fixpoint split_lines_from (line s : string) : list string :=
  match s with
  | EmptyString => [line]
  | String c rest =>
      if Main.is_nl c then line :: split_lines_from EmptyString rest
      else split_lines_from (line +:+ String c EmptyString) rest
  end.

Definition split_lines (s : string) : list string := split_lines_from EmptyString s.

Definition is_hash (c : ascii) : bool := Ascii.eqb c "#"%char.

(** [s.lstrip('#')] *)
Fixpoint lstrip_hashes (s : string) : string :=
  match s with
  | EmptyString => EmptyString
  | String c rest => if is_hash c then lstrip_hashes rest else s
  end.

(** The characters [s.strip('# ')] removes. *)
Definition hash_or_blank (c : ascii) : bool := is_hash c || Ascii.eqb c " "%char.

Fixpoint lstrip_marks (s : string) : string :=
  match s with
  | EmptyString => EmptyString
  | String c rest => if hash_or_blank c then lstrip_marks rest else s
  end.

Fixpoint rstrip_marks (s : string) : string :=
  match s with
  | EmptyString => EmptyString
  | String c rest =>
      match rstrip_marks rest with
      | EmptyString => if hash_or_blank c then EmptyString else String c EmptyString
      | kept => String c kept
      end
  end.

(** [s.strip('# ')] *)
Definition strip_marks (s : string) : string := rstrip_marks (lstrip_marks s).

(** [line.startswith('#') and not line.startswith('```')] *)
Definition is_heading (line : string) : bool :=
  String.prefix "#" line && negb (String.prefix "```" line).

(** [if s.strip():] *)
Definition non_blank (s : string) : bool := negb (String.eqb (Main.strip s) "").

(** One turn of the loop over the lines: [sections] and
    [current_section]. *)
Definition scan (st : list Section_ * Section_) (line : string)
    : list Section_ * Section_ :=
  let '(sections, current_section) := st in
  if is_heading line then
    let sections' :=
      if non_blank (sec_content current_section)
      then sections ++ [current_section] else sections in
    let level := (String.length line - String.length (lstrip_hashes line))%nat in
    (sections', mkSection (strip_marks line) "" (Some level))
  else
    (sections,
     mkSection (sec_title current_section)
       (sec_content current_section +:+ line +:+ Synthesizer.nl)
       (sec_level current_section)).

(** The ["sections"] entry of the metadata of a file with the given
    content. *)
Definition sections_of (content : string) : list Section_ :=
  let '(sections, current_section) :=
    fold_left scan (split_lines content) ([], mkSection "Introduction" "" None) in
  if non_blank (sec_content current_section)
  then sections ++ [current_section] else sections.

End DocumentLoader.

(** ** Reference formulations for the further properties *)

Module Ref.

(** The sub-query an entry of the decoded data stands for, if any. *)
Definition entry_sub_query (entry : Planner.json) : option Planner.SubQuery :=
  match entry with
  | Planner.JObj entries =>
      let txt :=
        match Planner.get "query" entries with
        | Some v => v
        | None => default (Planner.JStr "") (Planner.get "text" entries)
        end in
      if Planner.truthy txt
      then Some (Planner.mkSubQuery txt
                   (default (Planner.JInt 1) (Planner.get "priority" entries)))
      else None
  | _ => None
  end.

(** The paragraphs of a document that are long enough to be stored, each
    with its metadata. *)
Definition eligible (doc : Main.Document) : list (string * Main.ChunkMetadata) :=
  omap
    (fun ip : nat * string =>
       if (String.length (Main.strip ip.2) <? 50)%nat then None
       else Some (ip.2,
                  Main.mkChunkMetadata (Main.path doc)
                    (default "unknown" (Main.title doc)) ip.1))
    (Main.enumerate (Main.split_paragraphs (Main.doc_content doc))).

(** No character of [s] is whitespace. *)
Definition spaceless (s : string) : Prop :=
  Forall (fun c => Py.is_space c = false) (list_ascii_of_string s).

End Ref.

(** ** Further sample inputs *)

Module Cases.

(** A store with three documents that all answer the query "docker
    image". *)
Definition rich_store (query_text : string) (top_k : Z) : Retriever.QueryResult :=
  Retriever.mkQueryResult
    (Some [["build the docker image"; "push the docker image"; "tag a docker image"]])
    (Some [[Retriever.mkMetadata (Some "build.md") (Some "Build");
            Retriever.mkMetadata (Some "push.md") (Some "Push");
            Retriever.mkMetadata (Some "tag.md") None]])
    (Some [["b"; "p"; "t"]])
    (Some [[Some (2 # 10); Some (1 # 10); Some (4 # 10)]]).

Definition two_paragraphs : Main.Document :=
  Main.mkDocument "docs/deploy.md"
    ("# Deploy" +:+ Synthesizer.nl +:+ Synthesizer.nl
     +:+ "Build the image with docker build and push it to the registry of the project.")
    (Some "Deploy").

(** Four validated chunks; the confidence of the last one is out of
    range. *)
Definition four_validated : list ValidatedChunk :=
  [mkValidatedChunk Sample.docker_chunk (9 # 10) "High";
   mkValidatedChunk Sample.docker_chunk (7 # 10) "Moderate";
   mkValidatedChunk Sample.docker_chunk (7 # 10) "Moderate";
   mkValidatedChunk Sample.docker_chunk 5 "Retry retrieval"].

(** Six validated chunks with different contents. *)
Definition six_validated : list ValidatedChunk :=
  map (fun t : string =>
         mkValidatedChunk (mkRetrievedChunk t "deploy.md" "Docker" (9 # 10) t)
           (9 # 10) "High")
    ["one"; "two"; "three"; "four"; "five"; "six"].

Definition markdown : string :=
  "# Deploy" +:+ Synthesizer.nl +:+ "Build the image." +:+ Synthesizer.nl
  +:+ "## Push" +:+ Synthesizer.nl +:+ "### Tags" +:+ Synthesizer.nl
  +:+ "Tag it, then push it.".

End Cases.

(** * Properties *)

(** ** Sorting *)

Section SortFacts.

Context {A : Type} (key : A -> Q).

Lemma insert_desc_perm (x : A) (l : list A) : Py.insert_desc key x l ≡ₚ x :: l.
Proof.
  induction l as [|y ys IH]; simpl; [done|].
  destruct (Qle_bool (key y) (key x)); [done|].
  rewrite IH. apply Permutation_swap.
Qed.

Lemma sort_desc_perm (l : list A) : Py.sort_desc key l ≡ₚ l.
Proof.
  induction l as [|x l IH]; simpl; [done|].
  rewrite insert_desc_perm. by rewrite IH.
Qed.

Lemma insert_desc_sorted (x : A) (l : list A) :
  StronglySorted (Spec.before key) l → StronglySorted (Spec.before key) (Py.insert_desc key x l).
Proof.
  induction 1 as [|y ys Hs IH Hall]; simpl.
  - repeat constructor.
  - destruct (Qle_bool (key y) (key x)) eqn:E.
    + apply Qle_bool_iff in E.
      constructor; [by constructor|].
      constructor; [exact E|].
      eapply Forall_impl; [exact Hall|].
      intros b Hb. unfold Spec.before in *. by eapply Qle_trans.
    + constructor; [exact IH|].
      rewrite insert_desc_perm. constructor; [|exact Hall].
      unfold Spec.before. apply Qlt_le_weak, Qnot_le_lt.
      intros Hle. apply Qle_bool_iff in Hle. congruence.
Qed.

Lemma sort_desc_sorted (l : list A) : StronglySorted (Spec.before key) (Py.sort_desc key l).
Proof.
  induction l as [|x l IH]; simpl; [constructor|].
  by apply insert_desc_sorted.
Qed.

Lemma strongly_sorted_descending (l : list A) :
  StronglySorted (Spec.before key) l → Spec.descending key l.
Proof.
  induction 1 as [|y ys Hs IH Hall]; intros i j a b Hij Ha Hb.
  - by rewrite lookup_nil in Ha.
  - destruct j as [|j]; [lia|]. simpl in Hb.
    destruct i as [|i]; simpl in Ha.
    + injection Ha as <-. rewrite Forall_forall in Hall.
      apply Hall. by eapply list_elem_of_lookup_2.
    + eapply IH; [|exact Ha|exact Hb]. lia.
Qed.

Lemma sort_desc_descending (l : list A) : Spec.descending key (Py.sort_desc key l).
Proof. apply strongly_sorted_descending, sort_desc_sorted. Qed.

(** Stability: insertion never moves [x] past an element of equal key. *)
Lemma insert_desc_with_key (q : Q) (x : A) (l : list A) :
  Spec.with_key key q (Py.insert_desc key x l) = Spec.with_key key q (x :: l).
Proof.
  unfold Spec.with_key.
  induction l as [|y ys IH]; [done|]. simpl.
  destruct (Qle_bool (key y) (key x)) eqn:E; [done|].
  simpl. rewrite IH. simpl.
  destruct (Qeq_bool (key x) q) eqn:Ex, (Qeq_bool (key y) q) eqn:Ey; try done.
  apply Qeq_bool_iff in Ex, Ey.
  assert (Qle_bool (key y) (key x) = true); [|congruence].
  apply Qle_bool_iff. rewrite Ex, Ey. apply Qle_refl.
Qed.

Lemma sort_desc_with_key (q : Q) (l : list A) :
  Spec.with_key key q (Py.sort_desc key l) = Spec.with_key key q l.
Proof.
  induction l as [|x l IH]; [done|]. simpl.
  rewrite insert_desc_with_key. unfold Spec.with_key in *. simpl.
  by rewrite IH.
Qed.

End SortFacts.

(** ** Loops that keep a set of seen keys *)

Section ListFacts.

Context {A : Type}.

Lemma elem_of_bfilter (p : A -> bool) (l : list A) (x : A) :
  x ∈ List.filter p l ↔ x ∈ l ∧ p x = true.
Proof. rewrite !list_elem_of_In. apply filter_In. Qed.

Lemma bfilter_bfilter (p q : A -> bool) (l : list A) :
  List.filter p (List.filter q l) = List.filter (fun x => q x && p x) l.
Proof.
  induction l as [|x l IH]; [done|]. simpl.
  destruct (q x); simpl; [|done]. destruct (p x); by rewrite IH.
Qed.

Lemma bfilter_ext_in (p q : A -> bool) (l : list A) :
  (∀ x, x ∈ l → p x = q x) → List.filter p l = List.filter q l.
Proof.
  intros H. apply filter_ext_in. intros x Hx. apply H. by apply list_elem_of_In.
Qed.

Lemma bfilter_all (p : A -> bool) (l : list A) :
  (∀ x, x ∈ l → p x = true) → List.filter p l = l.
Proof.
  induction l as [|x l IH]; intros H; [done|]. simpl.
  rewrite H by left. f_equal. apply IH. intros y Hy. apply H. by right.
Qed.

End ListFacts.

Section FirstBy.

Context {A : Type} (k : A -> string).

Lemma first_by_subset (l : list A) (x : A) : x ∈ Spec.first_by k l → x ∈ l.
Proof.
  revert x. induction l as [|y l IH]; intros x; simpl; [done|].
  rewrite !elem_of_cons, elem_of_bfilter. naive_solver.
Qed.

Lemma NoDup_map_bfilter (p : A -> bool) (l : list A) :
  NoDup (map k l) → NoDup (map k (List.filter p l)).
Proof.
  induction l as [|x l IH]; simpl; [done|].
  rewrite NoDup_cons. intros [Hx Hl].
  destruct (p x); simpl; [|by apply IH].
  apply NoDup_cons. split; [|by apply IH].
  intros Hin. apply Hx.
  apply list_elem_of_fmap in Hin as (y & -> & Hy).
  apply elem_of_bfilter in Hy as [Hy _].
  apply list_elem_of_fmap. eauto.
Qed.

Lemma first_by_NoDup (l : list A) : NoDup (map k (Spec.first_by k l)).
Proof.
  induction l as [|x l IH]; simpl; [constructor|].
  apply NoDup_cons. split; [|by apply NoDup_map_bfilter].
  intros Hin. apply list_elem_of_fmap in Hin as (y & Hk & Hy).
  apply elem_of_bfilter in Hy as [_ Hy].
  rewrite Hk, String.eqb_refl in Hy. done.
Qed.

Lemma first_by_id (l : list A) : NoDup (map k l) → Spec.first_by k l = l.
Proof.
  induction l as [|x l IH]; simpl; [done|].
  rewrite NoDup_cons. intros [Hx Hl]. rewrite IH by done. f_equal.
  apply bfilter_all. intros y Hy.
  destruct (String.eqb (k y) (k x)) eqn:E; [|done].
  apply String.eqb_eq in E. exfalso. apply Hx. rewrite <- E.
  apply list_elem_of_fmap. eauto.
Qed.

(** A loop whose turn appends [f x] unless the key of [x] was seen. *)
Context {B : Type} (f : A -> B) (step : list B * gset string -> A -> list B * gset string).

Hypothesis step_eq : ∀ st x,
  step st x = if decide (k x ∈ st.2) then st else (st.1 ++ [f x], {[k x]} ∪ st.2).

Lemma seen_loop (l : list A) (acc : list B) (seen : gset string) :
  fold_left step l (acc, seen) =
    (acc ++ map f (List.filter (fun y => bool_decide (k y ∉ seen)) (Spec.first_by k l)),
     list_to_set (map k l) ∪ seen).
Proof.
  revert acc seen. induction l as [|x l IH]; intros acc seen; simpl.
  - by rewrite app_nil_r, (left_id_L ∅ (∪)).
  - rewrite step_eq. simpl. destruct (decide (k x ∈ seen)) as [Hin|Hout].
    + rewrite IH. f_equal; [|set_solver].
      rewrite bool_decide_eq_false_2 by (intros H; by apply H).
      rewrite bfilter_bfilter. do 2 f_equal. apply bfilter_ext_in. intros y _.
      destruct (String.eqb (k y) (k x)) eqn:E; [|done]. simpl.
      apply String.eqb_eq in E. rewrite E.
      apply bool_decide_eq_false_2. intros H; by apply H.
    + rewrite IH. f_equal; [|set_solver].
      rewrite bool_decide_eq_true_2 by done. simpl.
      rewrite <- app_assoc. simpl. do 3 f_equal.
      rewrite bfilter_bfilter. apply bfilter_ext_in. intros y _.
      destruct (String.eqb (k y) (k x)) eqn:E; simpl.
      * apply String.eqb_eq in E. rewrite E.
        apply bool_decide_eq_false_2. set_solver.
      * apply String.eqb_neq in E. apply bool_decide_ext. set_solver.
Qed.

Lemma seen_loop_fresh (l : list A) :
  (fold_left step l ([], ∅)).1 = map f (Spec.first_by k l).
Proof.
  rewrite seen_loop. simpl. f_equal. apply bfilter_all. intros y _.
  apply bool_decide_eq_true_2. set_solver.
Qed.

End FirstBy.

(** ** The retriever *)

Section RetrieverFacts.

Variable search : string -> Z -> Retriever.QueryResult.

Lemma visit_step (st : Retriever.State) (h : Retriever.Hit) :
  Retriever.visit st h =
    if decide (Retriever.hit_id h ∈ st.2) then st
    else (st.1 ++ [Retriever.make_chunk h], {[Retriever.hit_id h]} ∪ st.2).
Proof. by destruct h as [[[doc md] doc_id] d]. Qed.

Lemma make_chunk_id (h : Retriever.Hit) :
  chunk_id (Retriever.make_chunk h) = Retriever.hit_id h.
Proof. by destruct h as [[[doc md] doc_id] d]. Qed.

Lemma make_chunk_score (h : Retriever.Hit) :
  relevance_score (Retriever.make_chunk h) = Retriever.score (Retriever.hit_distance h).
Proof. by destruct h as [[[doc md] doc_id] d]. Qed.

Lemma outer_loop_flat (sub_queries : list SubQuery) (top_k : Z) (st : Retriever.State) :
  fold_left (Retriever.visit_sub_query search top_k) sub_queries st =
    fold_left Retriever.visit (Retriever.encountered search sub_queries top_k) st.
Proof.
  revert st. induction sub_queries as [|sq rest IH]; intros st; [done|].
  unfold Retriever.encountered. simpl. rewrite fold_left_app. apply IH.
Qed.

(** The loops keep the first hit of every id, in the order met. *)
Lemma collect_first_by (sub_queries : list SubQuery) (top_k : Z) :
  Retriever.collect search sub_queries top_k =
    map Retriever.make_chunk
      (Spec.first_by Retriever.hit_id (Retriever.encountered search sub_queries top_k)).
Proof.
  unfold Retriever.collect. rewrite outer_loop_flat.
  apply (seen_loop_fresh Retriever.hit_id Retriever.make_chunk Retriever.visit visit_step).
Qed.

Lemma collect_NoDup (sub_queries : list SubQuery) (top_k : Z) :
  NoDup (map chunk_id (Retriever.collect search sub_queries top_k)).
Proof.
  rewrite collect_first_by, map_map.
  rewrite (map_ext _ Retriever.hit_id) by apply make_chunk_id.
  apply first_by_NoDup.
Qed.

Lemma retrieve_parallel_NoDup (sub_queries : list SubQuery) (top_k : Z) :
  NoDup (map chunk_id (Retriever.retrieve_parallel search sub_queries top_k)).
Proof.
  unfold Retriever.retrieve_parallel.
  rewrite (Permutation_map chunk_id (sort_desc_perm relevance_score _)).
  apply collect_NoDup.
Qed.

Lemma retrieve_parallel_elem (sub_queries : list SubQuery) (top_k : Z) (c : RetrievedChunk) :
  c ∈ Retriever.retrieve_parallel search sub_queries top_k →
  ∃ h, h ∈ Retriever.encountered search sub_queries top_k ∧ c = Retriever.make_chunk h.
Proof.
  unfold Retriever.retrieve_parallel. rewrite sort_desc_perm, collect_first_by.
  intros Hc. apply list_elem_of_fmap in Hc as (h & -> & Hh).
  exists h. split; [|done]. by eapply first_by_subset.
Qed.

End RetrieverFacts.

(** C5. For every list of sub-queries and every [top_k], the list
    [retrieve_parallel] returns has no two entries with the same
    [chunk_id] and is in descending order of [relevance_score]; it holds
    the chunk of the first hit of every id met across the result sets of
    the sub-queries, and chunks of equal score stand in the order in
    which they were met. *)
Theorem retrieve_parallel_unique_sorted_stable
    (search : string -> Z -> Retriever.QueryResult)
    (sub_queries : list SubQuery) (top_k : Z) :
  let out := Retriever.retrieve_parallel search sub_queries top_k in
  let met :=
    map Retriever.make_chunk
      (Spec.first_by Retriever.hit_id (Retriever.encountered search sub_queries top_k)) in
  NoDup (map chunk_id out)
  ∧ Spec.descending relevance_score out
  ∧ out ≡ₚ met
  ∧ ∀ s : Q, Spec.with_key relevance_score s out = Spec.with_key relevance_score s met.
Proof.
  simpl. split; [apply retrieve_parallel_NoDup|].
  unfold Retriever.retrieve_parallel. rewrite <- collect_first_by.
  split; [apply sort_desc_descending|].
  split; [apply sort_desc_perm|].
  intros s. apply sort_desc_with_key.
Qed.

Lemma score_clamp (d : Q) :
  (Retriever.score (Some d) == Spec.clamp (1 - d / 2) 0 1)%Q.
Proof.
  unfold Retriever.score, Spec.clamp, Py.max2, Py.min2, Py.Qlt_bool. simpl.
  set (x := (1 - d / 2)%Q).
  destruct (Qlt_le_dec x 0) as [Hlo|Hlo].
  - assert (Qle_bool 1 x = false) as ->.
    { apply not_true_is_false. intros H. apply Qle_bool_iff in H.
      apply (Qlt_not_le _ _ Hlo). eapply Qle_trans; [|exact H]. done. }
    simpl. assert (Qle_bool x 0 = true) as ->; [|done].
    apply Qle_bool_iff. by apply Qlt_le_weak.
  - destruct (Qlt_le_dec 1 x) as [Hhi|Hhi].
    + assert (Qle_bool 1 x = true) as ->.
      { apply Qle_bool_iff. by apply Qlt_le_weak. }
      simpl. done.
    + destruct (Qle_bool 1 x) eqn:E1; simpl.
      * apply Qle_bool_iff in E1. by apply Qle_antisym.
      * destruct (Qle_bool x 0) eqn:E0; simpl; [|done].
        apply Qle_bool_iff in E0. by apply Qle_antisym.
Qed.

(** C6. The [relevance_score] of the chunk made from a raw hit is
    [clamp(1 - d/2, 0, 1)] of the hit's distance [d]: 1 for [d = 0], 0 for
    [d = 2], and 0.5 for a distance that is [None]; every chunk
    [retrieve_parallel] returns is made from a hit in this way. *)
Theorem relevance_score_is_clamped_similarity :
  (∀ (doc : string) (md : Retriever.Metadata) (doc_id : string) (d : Q),
     (relevance_score (Retriever.make_chunk (doc, md, doc_id, Some d))
        == Spec.clamp (1 - d / 2) 0 1)%Q)
  ∧ (∀ (doc : string) (md : Retriever.Metadata) (doc_id : string),
       (relevance_score (Retriever.make_chunk (doc, md, doc_id, Some 0%Q)) == 1)%Q
       ∧ (relevance_score (Retriever.make_chunk (doc, md, doc_id, Some 2%Q)) == 0)%Q
       ∧ (relevance_score (Retriever.make_chunk (doc, md, doc_id, None)) == 5 # 10)%Q)
  ∧ (∀ (search : string -> Z -> Retriever.QueryResult) (sub_queries : list SubQuery)
       (top_k : Z) (c : RetrievedChunk),
       c ∈ Retriever.retrieve_parallel search sub_queries top_k →
       ∃ h, h ∈ Retriever.encountered search sub_queries top_k
            ∧ chunk_id c = Retriever.hit_id h
            ∧ relevance_score c = Retriever.score (Retriever.hit_distance h)).
Proof.
  split; [|split].
  - intros. simpl. apply score_clamp.
  - intros. by vm_compute.
  - intros search sub_queries top_k c Hc.
    apply retrieve_parallel_elem in Hc as (h & Hh & ->).
    exists h. by rewrite make_chunk_id, make_chunk_score.
Qed.

Lemma relevance_score_is_clamped_similarity_witness :
  let c :=
    Retriever.make_chunk
      ("deploy the docker image",
       Retriever.mkMetadata (Some "deploy.md") (Some "Docker"), "a", Some (4 # 10)) in
  c ∈ Retriever.retrieve_parallel Sample.small_store (Sample.single_plan "deploy docker") 5
  ∧ ∃ h, h ∈ Retriever.encountered Sample.small_store
               (Sample.single_plan "deploy docker") 5
         ∧ chunk_id c = Retriever.hit_id h
         ∧ relevance_score c = Retriever.score (Retriever.hit_distance h).
Proof.
  intros c.
  assert (c ∈ Retriever.retrieve_parallel Sample.small_store
                (Sample.single_plan "deploy docker") 5) as H
    by (vm_compute; left).
  split; [exact H|].
  exact (proj2 (proj2 relevance_score_is_clamped_similarity)
           Sample.small_store (Sample.single_plan "deploy docker") 5%Z c H).
Defined.

(** ** Text *)

Lemma is_space_lower_char (c : ascii) : Py.is_space (Py.lower_char c) = Py.is_space c.
Proof. by destruct c as [[] [] [] [] [] [] [] []]. Qed.

Lemma lower_snoc (w : string) (c : ascii) :
  Py.lower (w +:+ String c EmptyString) = Py.lower w +:+ String (Py.lower_char c) EmptyString.
Proof. induction w as [|a w IH]; simpl; [done|]. by rewrite IH. Qed.

Lemma flush_lower (w : string) : Py.flush (Py.lower w) = map Py.lower (Py.flush w).
Proof. by destruct w. Qed.

Lemma split_from_lower (w s : string) :
  Py.split_from (Py.lower w) (Py.lower s) = map Py.lower (Py.split_from w s).
Proof.
  revert w. induction s as [|c s IH]; intros w; simpl.
  - apply flush_lower.
  - rewrite is_space_lower_char. destruct (Py.is_space c).
    + rewrite map_app, flush_lower. f_equal. apply (IH EmptyString).
    + rewrite <- lower_snoc. apply IH.
Qed.

(** Lowering the text and splitting it gives the lowered tokens. *)
Lemma split_lower (s : string) : Py.split (Py.lower s) = Spec.tokens s.
Proof. apply (split_from_lower EmptyString). Qed.

(** ** The validator *)

Lemma NoDup_bfilter {A : Type} (p : A -> bool) (l : list A) :
  NoDup l → NoDup (List.filter p l).
Proof.
  induction 1 as [|x l Hx Hl IH]; simpl; [constructor|].
  destruct (p x); [|done]. constructor; [|done].
  rewrite elem_of_bfilter. tauto.
Qed.

Lemma size_word_set (s : string) :
  size (Validator.word_set s) = length (remove_dups (Spec.tokens s)).
Proof.
  unfold Validator.word_set. rewrite split_lower.
  rewrite <- (size_list_to_set (C := gset string)) by apply NoDup_remove_dups.
  f_equal. apply set_eq. intros w.
  by rewrite !elem_of_list_to_set, elem_of_remove_dups.
Qed.

Lemma size_overlap (query chunk_text : string) :
  size (Validator.word_set query ∩ Validator.word_set chunk_text) =
    length (List.filter (fun w => bool_decide (w ∈ Spec.tokens chunk_text))
              (remove_dups (Spec.tokens query))).
Proof.
  unfold Validator.word_set. rewrite !split_lower.
  rewrite <- (size_list_to_set (C := gset string))
    by apply NoDup_bfilter, NoDup_remove_dups.
  f_equal. apply set_eq. intros w.
  rewrite elem_of_intersection, !elem_of_list_to_set, elem_of_bfilter,
    elem_of_remove_dups, bool_decide_eq_true.
  done.
Qed.

(** The coverage the code computes on sets is the ratio of the
    specification. *)
Lemma overlap_coverage_ratio (query chunk_text : string) :
  Validator.overlap_coverage (Validator.word_set query) (Validator.word_set chunk_text)
    = Spec.overlap_ratio query chunk_text.
Proof.
  unfold Validator.overlap_coverage, Spec.overlap_ratio.
  rewrite size_overlap, size_word_set.
  by destruct (remove_dups (Spec.tokens query)).
Qed.

(** C4. The confidence the validator gives a chunk for the original
    query is [0.5 * overlap_ratio + 0.5 * relevance_score], where
    [overlap_ratio] is [|Q ∩ C| / |Q|] over the case-insensitive
    whitespace tokens of the query and of the chunk, and 0 when the query
    has no token. *)
Theorem confidence_is_blend_of_overlap_and_relevance
    (c : RetrievedChunk) (query : string) :
  ((Validator._validate_single c query).1
     == (5 # 10) * Spec.overlap_ratio query (content c) + (5 # 10) * relevance_score c)%Q.
Proof.
  unfold Validator._validate_single. simpl.
  rewrite overlap_coverage_ratio. ring.
Qed.

Section ValidatorFacts.

Variable min_confidence : Q.

Lemma covered_topics_spec (sub_queries : list SubQuery) (vcs : list ValidatedChunk)
    (covered : gset string) (t : string) :
  t ∈ fold_left (Validator.mark sub_queries) vcs covered ↔
    t ∈ covered ∨
    ∃ vc sq, vc ∈ vcs ∧ sq ∈ sub_queries ∧ text sq = t
             ∧ Validator._topic_coverage (chunk vc) t = true.
Proof.
  revert covered. induction vcs as [|vc vcs IH]; intros covered; simpl.
  - split; [by left|]. intros [H|(vc & sq & H & _)]; [done|]. by apply elem_of_nil in H.
  - rewrite IH. clear IH.
    assert (∀ (sqs : list SubQuery) (cov : gset string), t ∈ fold_left
              (fun covered sq =>
                 if Validator._topic_coverage (chunk vc) (text sq)
                 then {[text sq]} ∪ covered else covered) sqs cov ↔
            t ∈ cov ∨ ∃ sq, sq ∈ sqs ∧ text sq = t
                            ∧ Validator._topic_coverage (chunk vc) t = true) as Hin.
    { induction sqs as [|sq sqs IHs]; intros cov; simpl.
      - split; [by left|]. intros [H|(sq & H & _)]; [done|]. by apply elem_of_nil in H.
      - rewrite IHs. setoid_rewrite elem_of_cons.
        destruct (Validator._topic_coverage (chunk vc) (text sq)) eqn:E.
        + rewrite elem_of_union, elem_of_singleton. split.
          * intros [[->|H]|H]; [right; eauto|by left|]. right. naive_solver.
          * intros [H|(sq' & [->|H] & <- & Hc)]; [tauto|tauto|]. right. eauto.
        + split; [naive_solver|].
          intros [H|(sq' & [->|H] & <- & Hc)]; [tauto|congruence|]. right. eauto. }
    unfold Validator.mark. rewrite Hin. setoid_rewrite elem_of_cons.
    split.
    + intros [[H|(sq & Hsq & Ht & Hc)]|(vc' & sq & Hvc & H)]; [by left| |].
      * right. exists vc, sq. tauto.
      * right. exists vc', sq. tauto.
    + intros [H|(vc' & sq & [->|Hvc] & Hsq & Ht & Hc)]; [tauto| |].
      * left. right. eauto.
      * right. exists vc', sq. tauto.
Qed.

Lemma missing_topics_spec (covered : gset string) (sub_queries : list SubQuery)
    (missing : list string) (t : string) :
  t ∈ fold_left (Validator.note_missing covered) sub_queries missing ↔
    t ∈ missing ∨ ((t ∉ covered) ∧ ∃ sq, sq ∈ sub_queries ∧ text sq = t).
Proof.
  revert missing. induction sub_queries as [|sq sqs IH]; intros missing; simpl.
  - split; [by left|]. intros [H|(_ & sq & H & _)]; [done|]. by apply elem_of_nil in H.
  - rewrite IH. unfold Validator.note_missing. setoid_rewrite elem_of_cons.
    destruct (decide (text sq ∈ covered)) as [Hc|Hc].
    + split; [naive_solver|].
      intros [H|(Hn & sq' & [->|H] & <-)]; [tauto|tauto|]. right. eauto.
    + rewrite elem_of_app, list_elem_of_singleton. split.
      * intros [[H| ->]|H]; [tauto|right; eauto|right; naive_solver].
      * intros [H|(Hn & sq' & [->|H] & <-)]; [tauto|tauto|]. right. eauto.
Qed.

End ValidatorFacts.

(** C7. The validated list [validate_batch] returns is in descending
    order of confidence for every input, and for an empty chunk list the
    result is the empty list, the texts of all sub-queries as missing
    topics, and [needs_reretrieval = True]. *)
Theorem validate_batch_sorted_and_empty_case
    (min_confidence : Q) (sub_queries : list SubQuery) (original_query : string) :
  (∀ chunks : list RetrievedChunk,
     Spec.descending confidence
       (Validator.validate_batch min_confidence chunks sub_queries original_query).1.1)
  ∧ Validator.validate_batch min_confidence [] sub_queries original_query
      = ([], map text sub_queries, true).
Proof.
  split; [|done]. intros [|c chunks]; simpl.
  - intros i j a b _ H. by rewrite lookup_nil in H.
  - apply sort_desc_descending.
Qed.

(** C2. For a non-empty chunk list, [needs_reretrieval] is true exactly
    when fewer than 3 chunks were validated or some sub-query of priority
    1 is among the missing topics; and a sub-query is among the missing
    topics exactly when none of the top 5 validated chunks covers it. *)
Theorem needs_reretrieval_iff
    (min_confidence : Q) (chunks : list RetrievedChunk) (sub_queries : list SubQuery)
    (original_query : string) :
  chunks ≠ [] →
  let r := Validator.validate_batch min_confidence chunks sub_queries original_query in
  let validated := r.1.1 in
  let missing_topics := r.1.2 in
  let needs_reretrieval := r.2 in
  (needs_reretrieval = true ↔
     (length validated < 3)%nat
     ∨ ∃ sq, sq ∈ sub_queries ∧ priority sq = 1%Z ∧ text sq ∈ missing_topics)
  ∧ (∀ sq, sq ∈ sub_queries →
       (text sq ∈ missing_topics ↔
          ∀ vc, vc ∈ take 5 validated →
                Validator._topic_coverage (chunk vc) (text sq) = false)).
Proof.
  destruct chunks as [|c chunks]; [done|]. intros _. simpl. split.
  - rewrite orb_true_iff, Nat.ltb_lt, existsb_exists.
    apply or_iff_compat_l. split.
    + intros (sq & Hsq & H). apply andb_true_iff in H as [Hm Hp].
      apply bool_decide_eq_true in Hm. apply Z.eqb_eq in Hp.
      exists sq. by rewrite list_elem_of_In.
    + intros (sq & Hsq & Hp & Hm). exists sq. rewrite <- list_elem_of_In.
      split; [done|]. apply andb_true_iff. split.
      * by apply bool_decide_eq_true.
      * by apply Z.eqb_eq.
  - intros sq Hsq. rewrite missing_topics_spec, covered_topics_spec. split.
    + intros [H|[Hn _]]; [by apply elem_of_nil in H|].
      intros vc Hvc. apply not_true_is_false. intros Hc. apply Hn. right.
      exists vc, sq. tauto.
    + intros Hall. right. split; [|by exists sq].
      intros [H|(vc & sq' & Hvc & _ & _ & Hc)]; [by apply not_elem_of_empty in H|].
      rewrite (Hall vc Hvc) in Hc. done.
Qed.

Lemma needs_reretrieval_iff_witness :
  [Sample.docker_chunk] ≠ []
  ∧ let r := Validator.validate_batch (6 # 10) [Sample.docker_chunk]
               [Sample.docker_query] "How do I build the docker image?" in
    (r.2 = true ↔
       (length r.1.1 < 3)%nat
       ∨ ∃ sq, sq ∈ [Sample.docker_query] ∧ priority sq = 1%Z ∧ text sq ∈ r.1.2)
    ∧ (∀ sq, sq ∈ [Sample.docker_query] →
         (text sq ∈ r.1.2 ↔
            ∀ vc, vc ∈ take 5 r.1.1 →
                  Validator._topic_coverage (chunk vc) (text sq) = false)).
Proof.
  split; [done|].
  apply (needs_reretrieval_iff (6 # 10) [Sample.docker_chunk] [Sample.docker_query]).
  done.
Defined.

(** C10. When the constructor argument [min_confidence] is at most 0,
    which includes its default 0.0, the threshold the validator filters
    with is [validation_threshold] of the settings, 0.6 by default; so a
    threshold that is 0 or negative never comes from the argument. *)
Theorem nonpositive_min_confidence_uses_settings
    (settings : Config.Settings) (min_confidence : option Q) :
  (default 0 min_confidence <= 0)%Q →
  Validator.init settings min_confidence = Config.validation_threshold settings
  ∧ Validator.init Config.defaults min_confidence = (6 # 10)%Q
  ∧ ∀ arg : option Q,
      (Validator.init settings arg <= 0)%Q →
      Validator.init settings arg = Config.validation_threshold settings.
Proof.
  intros Hle.
  assert (∀ s, Validator.init s min_confidence = Config.validation_threshold s) as Hinit.
  { intros s. unfold Validator.init, Py.Qlt_bool.
    apply Qle_bool_iff in Hle. by rewrite Hle. }
  split; [apply Hinit|]. split; [by rewrite Hinit|].
  intros arg. unfold Validator.init, Py.Qlt_bool.
  destruct (Qle_bool (default 0%Q arg) 0) eqn:E; simpl; [done|].
  intros H. apply Qle_bool_iff in H. congruence.
Qed.

Lemma nonpositive_min_confidence_uses_settings_witness :
  (default 0 (Some (-1 # 2)) <= 0)%Q
  ∧ Validator.init Config.defaults (Some (-1 # 2)) = (6 # 10)%Q.
Proof.
  assert ((default 0 (Some (-1 # 2)) <= 0)%Q) as H by done.
  split; [exact H|].
  exact (proj1 (proj2
    (nonpositive_min_confidence_uses_settings Config.defaults (Some (-1 # 2)) H))).
Defined.

(** ** Scores stay between 0 and 1 *)

Lemma in_unit_iff (x : Q) : Models.in_unit x = true ↔ (0 <= x)%Q ∧ (x <= 1)%Q.
Proof. unfold Models.in_unit. by rewrite andb_true_iff, !Qle_bool_iff. Qed.

Lemma score_in_unit (d : option Q) : Models.in_unit (Retriever.score d) = true.
Proof.
  apply in_unit_iff.
  unfold Retriever.score, Py.max2, Py.min2, Py.Qlt_bool.
  set (x := Retriever.similarity d).
  destruct (Qle_bool 1 x) eqn:E1; simpl; [done|].
  destruct (Qle_bool x 0) eqn:E0; simpl; [done|].
  split.
  - apply Qlt_le_weak, Qnot_le_lt. intros H. apply Qle_bool_iff in H. congruence.
  - apply Qlt_le_weak, Qnot_le_lt. intros H. apply Qle_bool_iff in H. congruence.
Qed.

Lemma retrieve_parallel_in_unit (search : string -> Z -> Retriever.QueryResult)
    (sub_queries : list SubQuery) (top_k : Z) :
  Forall (fun c => Models.in_unit (relevance_score c) = true)
    (Retriever.retrieve_parallel search sub_queries top_k).
Proof.
  apply Forall_forall. intros c Hc.
  apply retrieve_parallel_elem in Hc as (h & _ & ->).
  rewrite make_chunk_score. apply score_in_unit.
Qed.

Lemma ratio_in_unit (n m : nat) :
  (n ≤ S m)%nat →
  (0 <= inject_Z (Z.of_nat n) / inject_Z (Z.of_nat (S m)))%Q
  ∧ (inject_Z (Z.of_nat n) / inject_Z (Z.of_nat (S m)) <= 1)%Q.
Proof.
  intros Hle.
  assert (0 < inject_Z (Z.of_nat (S m)))%Q as Hpos.
  { change 0%Q with (inject_Z 0). rewrite <- Zlt_Qlt. lia. }
  split.
  - apply Qle_shift_div_l; [done|]. rewrite Qmult_0_l.
    change 0%Q with (inject_Z 0). rewrite <- Zle_Qle. lia.
  - apply Qle_shift_div_r; [done|]. rewrite Qmult_1_l.
    rewrite <- Zle_Qle. lia.
Qed.

Lemma overlap_coverage_in_unit (query_words chunk_words : gset string) :
  (0 <= Validator.overlap_coverage query_words chunk_words)%Q
  ∧ (Validator.overlap_coverage query_words chunk_words <= 1)%Q.
Proof.
  unfold Validator.overlap_coverage.
  pose proof (subseteq_size (query_words ∩ chunk_words) query_words) as Hsize.
  destruct (size query_words) as [|m] eqn:E; [done|].
  apply ratio_in_unit. apply Hsize. set_solver.
Qed.

Lemma validate_single_in_unit (c : RetrievedChunk) (query : string) :
  Models.in_unit (relevance_score c) = true →
  Models.in_unit (Validator._validate_single c query).1 = true.
Proof.
  rewrite !in_unit_iff. intros [Hlo Hhi]. simpl.
  destruct (overlap_coverage_in_unit (Validator.word_set query)
              (Validator.word_set (content c))) as [Clo Chi].
  set (cov := Validator.overlap_coverage _ _) in *.
  split; lra.
Qed.

Lemma sum_Q_bounds (xs : list Q) (a : Q) :
  Forall (fun x => Models.in_unit x = true) xs →
  (a <= fold_left Qplus xs a)%Q
  ∧ (fold_left Qplus xs a <= a + inject_Z (Z.of_nat (length xs)))%Q.
Proof.
  intros H. revert a. induction H as [|x xs Hx _ IH]; intros a; cbn [fold_left length].
  - change (inject_Z (Z.of_nat 0)) with 0%Q. split; lra.
  - apply in_unit_iff in Hx as [Hlo Hhi]. destruct (IH (a + x)%Q) as [IHlo IHhi].
    rewrite Nat2Z.inj_succ, <- Z.add_1_r, inject_Z_plus.
    change (inject_Z 1) with 1%Q. split; lra.
Qed.

Lemma calculate_confidence_in_unit (validated : list ValidatedChunk) :
  Forall (fun vc => Models.in_unit (confidence vc) = true) validated →
  Models.in_unit (Pipeline._calculate_confidence validated) = true.
Proof.
  intros Hall. destruct validated as [|vc rest]; [done|].
  unfold Pipeline._calculate_confidence, Pipeline.sum_Q.
  set (top := map confidence (take 3 (vc :: rest))).
  assert (Forall (fun x => Models.in_unit x = true) top) as Htop.
  { subst top. apply Forall_forall. intros x Hx.
    apply list_elem_of_fmap in Hx as (v & -> & Hv).
    rewrite Forall_forall in Hall. apply Hall. by eapply subseteq_take. }
  destruct (sum_Q_bounds top 0 Htop) as [Hlo Hhi].
  assert (∃ m, length top = S m) as [m Hm].
  { subst top. simpl. eauto. }
  rewrite Hm in *.
  assert (0 < inject_Z (Z.of_nat (S m)))%Q as Hpos.
  { change 0%Q with (inject_Z 0). rewrite <- Zlt_Qlt. lia. }
  apply in_unit_iff. split.
  - apply Qle_shift_div_l; [done|]. lra.
  - apply Qle_shift_div_r; [done|]. lra.
Qed.

(** ** The validated list *)

Lemma first_by_app {A : Type} (k : A -> string) (l1 l2 : list A) :
  Spec.first_by k (l1 ++ l2) =
    Spec.first_by k l1
      ++ List.filter (fun y => bool_decide (k y ∉ map k l1)) (Spec.first_by k l2).
Proof.
  induction l1 as [|x l1 IH]; simpl.
  - symmetry. by apply bfilter_all.
  - f_equal. rewrite IH, List.filter_app. f_equal.
    rewrite bfilter_bfilter. apply bfilter_ext_in. intros y _.
    destruct (String.eqb (k y) (k x)) eqn:E; simpl.
    + apply String.eqb_eq in E. rewrite E, andb_false_r.
      symmetry. apply bool_decide_eq_false_2. intros H. apply H. left.
    + apply String.eqb_neq in E. rewrite andb_true_r.
      apply bool_decide_ext. rewrite not_elem_of_cons. tauto.
Qed.

Section KeepLoop.

Variable min_confidence : Q.
Variable original_query : string.

Lemma keep_loop (chunks : list RetrievedChunk) (acc : list ValidatedChunk) :
  fold_left (Validator.keep min_confidence original_query) chunks acc =
    acc ++ map (Spec.validated_entry original_query)
             (List.filter
                (fun c => Qle_bool min_confidence
                            (Validator._validate_single c original_query).1)
                chunks).
Proof.
  revert acc. induction chunks as [|c chunks IH]; intros acc; simpl.
  - by rewrite app_nil_r.
  - rewrite IH. unfold Validator.keep at 1. simpl.
    destruct (Qle_bool min_confidence _); [|done].
    by rewrite <- app_assoc.
Qed.

(** What [validate_batch] keeps: the chunks at or above the threshold,
    each with the confidence and reasoning of [_validate_single]. *)
Lemma validated_perm (chunks : list RetrievedChunk) (sub_queries : list SubQuery) :
  (Validator.validate_batch min_confidence chunks sub_queries original_query).1.1
    ≡ₚ map (Spec.validated_entry original_query)
         (List.filter
            (fun c => Qle_bool min_confidence
                        (Validator._validate_single c original_query).1)
            chunks).
Proof.
  destruct chunks as [|c chunks]; [done|].
  unfold Validator.validate_batch. cbn [fst].
  by rewrite sort_desc_perm, keep_loop.
Qed.

Lemma validated_NoDup (chunks : list RetrievedChunk) (sub_queries : list SubQuery) :
  NoDup (map chunk_id chunks) →
  NoDup (map Spec.underlying_id
           (Validator.validate_batch min_confidence chunks sub_queries original_query).1.1).
Proof.
  intros Hnd.
  rewrite (Permutation_map Spec.underlying_id (validated_perm chunks sub_queries)).
  rewrite map_map. simpl. by apply NoDup_map_bfilter.
Qed.

Lemma validated_in_unit (chunks : list RetrievedChunk) (sub_queries : list SubQuery) :
  Forall (fun c => Models.in_unit (relevance_score c) = true) chunks →
  Forall (fun vc => Models.in_unit (confidence vc) = true)
    (Validator.validate_batch min_confidence chunks sub_queries original_query).1.1.
Proof.
  intros Hall. rewrite (validated_perm chunks sub_queries).
  apply Forall_forall. intros vc Hvc.
  apply list_elem_of_fmap in Hvc as (c & -> & Hc).
  apply elem_of_bfilter in Hc as [Hc _].
  rewrite Forall_forall in Hall.
  apply validate_single_in_unit. by apply Hall.
Qed.

End KeepLoop.

Lemma dedup_first_by (validated : list ValidatedChunk) :
  Pipeline._deduplicate_validated validated = Spec.first_by Spec.underlying_id validated.
Proof.
  unfold Pipeline._deduplicate_validated.
  rewrite (seen_loop_fresh Spec.underlying_id id Pipeline.dedup_step); [|done].
  apply map_id.
Qed.

Section PipelineFacts.

Variable settings : Config.Settings.
Variable plan : string -> list SubQuery.
Variable search : string -> Z -> Retriever.QueryResult.

Lemma final_validated_NoDup (query : string) :
  NoDup (map Spec.underlying_id (Pipeline.validated_chunks settings plan search query).2).
Proof.
  unfold Pipeline.validated_chunks.
  pose proof (validated_NoDup (Pipeline.min_confidence settings) query
                (Retriever.retrieve_parallel search (plan query) 5) (plan query)
                (retrieve_parallel_NoDup search (plan query) 5)) as Hnd.
  destruct (Validator.validate_batch _ _ _ _) as [[validated missing] needs].
  destruct needs; simpl in *; [|done].
  rewrite dedup_first_by. apply first_by_NoDup.
Qed.

Lemma final_validated_in_unit (query : string) :
  Forall (fun vc => Models.in_unit (confidence vc) = true)
    (Pipeline.validated_chunks settings plan search query).2.
Proof.
  unfold Pipeline.validated_chunks.
  pose proof (validated_in_unit (Pipeline.min_confidence settings) query
                (Retriever.retrieve_parallel search (plan query) 5) (plan query)
                (retrieve_parallel_in_unit search (plan query) 5)) as Hall.
  destruct (Validator.validate_batch _ _ _ _) as [[validated missing] needs].
  destruct needs; simpl in *; [|done].
  rewrite dedup_first_by. apply Forall_forall. intros vc Hvc.
  apply first_by_subset, elem_of_app in Hvc as [Hvc|Hvc].
  - rewrite Forall_forall in Hall. by apply Hall.
  - apply list_elem_of_fmap in Hvc as (c & -> & Hc). simpl.
    pose proof (retrieve_parallel_in_unit search
                  (Pipeline._expand_queries (plan query)) 3) as Hre.
    rewrite Forall_forall in Hre. by apply Hre.
Qed.

End PipelineFacts.

(** ** The orchestrator *)

Lemma slice_to_sublist {A : Type} (n : Z) (l : list A) : Py.slice_to n l `sublist_of` l.
Proof. unfold Py.slice_to. destruct (0 <=? n)%Z; apply sublist_take. Qed.

Lemma slice_to_NoDup {A : Type} (k : A -> string) (n : Z) (l : list A) :
  NoDup (map k l) → NoDup (map k (Py.slice_to n l)).
Proof.
  intros H. unfold Py.slice_to.
  destruct (0 <=? n)%Z; rewrite <- firstn_map;
    (eapply sublist_NoDup; [exact H|apply sublist_take]).
Qed.

(** C1. [process] returns a result for every query, and the sources of
    that result are built, one each and in order, from validated chunks
    with pairwise different [chunk_id]s, whether or not the re-retrieval
    branch merged additional chunks. *)
Theorem process_sources_have_distinct_chunks
    (settings : Config.Settings) (plan : string -> list SubQuery)
    (search : string -> Z -> Retriever.QueryResult)
    (synthesize : string -> list ValidatedChunk -> string) (processing_time : Z)
    (query : string) (max_sources : Z) :
  ∃ (r : Pipeline.RAGResult) (shown : list ValidatedChunk),
    Pipeline.process settings plan search synthesize processing_time query max_sources
      = Some r
    ∧ shown = Py.slice_to max_sources
                (Pipeline.validated_chunks settings plan search query).2
    ∧ Forall2 (fun vc s => Pipeline.source_of vc = Some s) shown (Pipeline.sources r)
    ∧ NoDup (map Spec.underlying_id shown).
Proof.
  unfold Pipeline.process.
  pose proof (final_validated_NoDup settings plan search query) as Hnd.
  pose proof (final_validated_in_unit settings plan search query) as Hunit.
  destruct (Pipeline.validated_chunks settings plan search query)
    as [sub_queries validated].
  simpl in Hnd, Hunit.
  set (shown := Py.slice_to max_sources validated).
  assert (is_Some (mapM Pipeline.source_of shown)) as [srcs Hsrcs].
  { apply mapM_is_Some, Forall_forall. intros vc Hvc. simpl.
    unfold Pipeline.source_of, Models.new_source.
    rewrite Forall_forall in Hunit. rewrite Hunit; [done|].
    eapply elem_of_sublist; [exact Hvc|]. apply slice_to_sublist. }
  rewrite Hsrcs. simpl.
  unfold Models.new_metadata.
  rewrite (calculate_confidence_in_unit validated Hunit). simpl.
  eexists _, shown. split; [done|]. split; [done|]. split.
  - simpl. by apply mapM_Some_1.
  - by apply slice_to_NoDup.
Qed.

(** C3. In the re-retrieval branch the validated list goes on as the
    first validated list followed by one entry for every additional chunk
    whose [chunk_id] it does not hold yet, in the order the retry returned
    them; such an entry has the chunk's [relevance_score] as confidence
    and the reasoning "Retry retrieval". This is the merged list
    deduplicated by [chunk_id], first occurrence kept; it is not sorted
    again. *)
Theorem reretrieval_merge_keeps_order
    (settings : Config.Settings) (plan : string -> list SubQuery)
    (search : string -> Z -> Retriever.QueryResult) (query : string) :
  let sub_queries := plan query in
  let first_pass :=
    Validator.validate_batch (Pipeline.min_confidence settings)
      (Retriever.retrieve_parallel search sub_queries 5) sub_queries query in
  let validated := first_pass.1.1 in
  let additional_chunks :=
    Retriever.retrieve_parallel search (Pipeline._expand_queries sub_queries) 3 in
  let appended :=
    map (fun c => mkValidatedChunk c (relevance_score c) "Retry retrieval")
      additional_chunks in
  let final := (Pipeline.validated_chunks settings plan search query).2 in
  first_pass.2 = true →
  final = Spec.first_by Spec.underlying_id (validated ++ appended)
  ∧ final = validated
            ++ List.filter
                 (fun vc => bool_decide (Spec.underlying_id vc
                                           ∉ map Spec.underlying_id validated))
                 appended.
Proof.
  simpl. intros Hneeds.
  assert ((Pipeline.validated_chunks settings plan search query).2 =
          Spec.first_by Spec.underlying_id
            ((Validator.validate_batch (Pipeline.min_confidence settings)
                (Retriever.retrieve_parallel search (plan query) 5) (plan query) query).1.1
             ++ map Pipeline.retried
                  (Retriever.retrieve_parallel search
                     (Pipeline._expand_queries (plan query)) 3))) as Hfinal.
  { unfold Pipeline.validated_chunks.
    destruct (Validator.validate_batch _ _ _ _) as [[validated missing] needs].
    simpl in Hneeds. subst needs. simpl. apply dedup_first_by. }
  split; [exact Hfinal|].
  rewrite Hfinal, first_by_app. f_equal.
  - apply first_by_id, validated_NoDup, retrieve_parallel_NoDup.
  - f_equal. apply first_by_id. rewrite map_map. apply retrieve_parallel_NoDup.
Qed.

Lemma reretrieval_merge_keeps_order_witness :
  (Validator.validate_batch (Pipeline.min_confidence Config.defaults)
     (Retriever.retrieve_parallel Sample.small_store
        (Sample.single_plan "deploy docker") 5)
     (Sample.single_plan "deploy docker") "deploy docker").2 = true
  ∧ map Spec.underlying_id
      (Pipeline.validated_chunks Config.defaults Sample.single_plan
         Sample.small_store "deploy docker").2 = ["a"; "b"].
Proof.
  assert ((Validator.validate_batch (Pipeline.min_confidence Config.defaults)
             (Retriever.retrieve_parallel Sample.small_store
                (Sample.single_plan "deploy docker") 5)
             (Sample.single_plan "deploy docker") "deploy docker").2 = true) as H
    by (vm_compute; reflexivity).
  split; [exact H|].
  rewrite (proj2 (reretrieval_merge_keeps_order Config.defaults Sample.single_plan
                    Sample.small_store "deploy docker" H)).
  vm_compute. reflexivity.
Defined.

(** The list that reaches synthesis after a retry need not be in
    descending order of confidence: here a retried chunk of confidence 1
    follows a validated chunk of confidence 0.9. *)
Lemma reretrieval_result_not_sorted :
  ¬ Spec.descending confidence
      (Pipeline.validated_chunks Config.defaults Sample.single_plan
         Sample.small_store "deploy docker").2.
Proof.
  intros H.
  specialize (H 0%nat 1%nat _ _ (Nat.lt_0_1) eq_refl eq_refl).
  vm_compute in H. by apply H.
Qed.

(** ** The planner *)

Lemma convert_without_text (acc : list Planner.SubQuery) (entry : Planner.json) :
  ¬ Spec.has_text entry → Planner.convert acc entry = acc.
Proof.
  intros Hno. destruct entry as [| | | | | |entries]; try done. simpl.
  destruct (Planner.truthy _) eqn:E; [|done].
  exfalso. apply Hno.
  destruct (Planner.get "query" entries) as [v|] eqn:Eq.
  - exists entries, v. eauto.
  - destruct (Planner.get "text" entries) as [v|] eqn:Et; simpl in E; [|done].
    exists entries, v. eauto.
Qed.

Lemma convert_loop_without_text (items : list Planner.json) (acc : list Planner.SubQuery) :
  (∀ entry, entry ∈ items → ¬ Spec.has_text entry) →
  fold_left Planner.convert items acc = acc.
Proof.
  revert acc. induction items as [|e items IH]; intros acc H; simpl; [done|].
  rewrite convert_without_text by (apply H; left).
  apply IH. intros entry Hin. apply H. by right.
Qed.

Lemma single_not_empty (query : string) : Planner.single query ≠ [].
Proof. done. Qed.

(** C8. [plan] returns a non-empty list for every query and every reply
    of the completion service; when the service raises, or the content is
    [None] or cannot be decoded, or the decoded data has no entry with a
    non-empty text field, it returns exactly one sub-query, with the
    original query as text and priority 1. *)
Theorem plan_nonempty_and_falls_back
    (loads : string -> option Planner.json) (query : string)
    (reply : Planner.Completion) :
  Planner.plan loads query reply ≠ []
  ∧ (Spec.planning_failed loads reply →
     Planner.plan loads query reply
       = [Planner.mkSubQuery (Planner.JStr query) (Planner.JInt 1)]).
Proof.
  split.
  - destruct reply as [|[content|]]; simpl; try apply single_not_empty.
    destruct (loads content) as [data|]; [|apply single_not_empty].
    destruct (Planner.iterate _) as [items|]; [|apply single_not_empty].
    destruct (fold_left _ _ _); [apply single_not_empty|done].
  - intros [->|[->|(content & -> & [Hnone|(data & Hdata & Hno)])]]; simpl; try done.
    + by rewrite Hnone.
    + rewrite Hdata. destruct (Planner.iterate _) as [items|] eqn:E; [|done].
      rewrite convert_loop_without_text; [done|]. by apply Hno.
Qed.

Lemma plan_nonempty_and_falls_back_witness :
  Spec.planning_failed Sample.blank_loads (Planner.Content (Some "[...]"))
  ∧ Planner.plan Sample.blank_loads "deploy" (Planner.Content (Some "[...]"))
      = [Planner.mkSubQuery (Planner.JStr "deploy") (Planner.JInt 1)].
Proof.
  assert (Spec.planning_failed Sample.blank_loads (Planner.Content (Some "[...]"))) as H.
  { right. right. eexists. split; [reflexivity|]. right. eexists. split; [reflexivity|].
    intros items [= <-] entry Hin (entries & v & -> & Hv & Ht).
    apply elem_of_cons in Hin as [[= ->]|Hin]; [by destruct Hv as [Hv|[_ Hv]]|].
    apply elem_of_cons in Hin as [[= ->]|Hin].
    - destruct Hv as [[= <-]|[Hv _]]; done.
    - apply list_elem_of_singleton in Hin. done. }
  split; [exact H|].
  exact (proj2 (plan_nonempty_and_falls_back Sample.blank_loads "deploy" _) H).
Defined.

(** C9. The code does not meet the claim. An entry without a priority
    field gives a sub-query of priority 1, but an entry whose priority
    field holds the string "high", which is no valid priority value,
    gives a sub-query with that very string as priority: [plan] replaces
    an absent priority only and never checks the value of a present
    one. *)
Lemma malformed_priority_is_carried_through :
  Planner.plan Sample.odd_loads "How do I deploy?" (Planner.Content (Some "{...}"))
    = [Planner.mkSubQuery (Planner.JStr "AWS ECS setup") (Planner.JStr "high")]
  ∧ Spec.well_formed_priority (Planner.JStr "high") = false
  ∧ Planner.plan
      (fun _ => Some (Planner.JArr
                        [Planner.JObj [("query", Planner.JStr "AWS ECS setup")]]))
      "How do I deploy?" (Planner.Content (Some "[...]"))
    = [Planner.mkSubQuery (Planner.JStr "AWS ECS setup") (Planner.JInt 1)]
  ∧ ¬ (∀ (entries : list (string * Planner.json)) (sq : Planner.SubQuery),
         Planner.convert [] (Planner.JObj entries) = [sq] →
         (Planner.get "priority" entries = None
          ∨ ∃ v, Planner.get "priority" entries = Some v
                 ∧ Spec.well_formed_priority v = false) →
         Planner.priority sq = Planner.JInt 1).
Proof.
  split; [reflexivity|]. split; [reflexivity|]. split; [reflexivity|].
  intros claim.
  specialize (claim
    [("query", Planner.JStr "AWS ECS setup"); ("priority", Planner.JStr "high")]
    (Planner.mkSubQuery (Planner.JStr "AWS ECS setup") (Planner.JStr "high"))
    eq_refl).
  discriminate claim. right. by exists (Planner.JStr "high").
Qed.

(** * Further properties of the code *)

(** ** More on the retriever *)

Lemma zip4_elem (ds : list string) (ms : list Retriever.Metadata) (ks : list string)
    (xs : list (option Q)) (h : Retriever.Hit) :
  h ∈ Retriever.zip4 ds ms ks xs →
  Retriever.hit_id h ∈ ks ∧ Retriever.hit_distance h ∈ xs.
Proof.
  revert ms ks xs. induction ds as [|d ds IH]; intros [|m ms] [|k ks] [|x xs] Hin;
    simpl in Hin; try by apply elem_of_nil in Hin.
  apply elem_of_cons in Hin as [->|Hin]; simpl.
  - split; left.
  - destruct (IH _ _ _ Hin). split; by right.
Qed.

Lemma zip4_length (ds : list string) (ms : list Retriever.Metadata) (ks : list string)
    (xs : list (option Q)) :
  (length (Retriever.zip4 ds ms ks xs) ≤ length ds)%nat.
Proof.
  revert ms ks xs. induction ds as [|d ds IH]; intros [|m ms] [|k ks] [|x xs];
    simpl; try lia.
  specialize (IH ms ks xs). lia.
Qed.

Lemma first_by_nil_iff {A : Type} (k : A -> string) (l : list A) :
  Spec.first_by k l = [] ↔ l = [].
Proof. by destruct l. Qed.

Lemma first_by_length {A : Type} (k : A -> string) (l : list A) :
  (length (Spec.first_by k l) ≤ length l)%nat.
Proof.
  induction l as [|x l IH]; simpl; [lia|].
  pose proof (filter_length_le
                (fun y => negb (String.eqb (k y) (k x))) (Spec.first_by k l)).
  lia.
Qed.

Lemma bfilter_none {A : Type} (p : A -> bool) (l : list A) :
  (∀ x, x ∈ l → p x = false) → List.filter p l = [].
Proof.
  induction l as [|x l IH]; intros H; [done|]. simpl.
  rewrite H by left. apply IH. intros y Hy. apply H. by right.
Qed.

Lemma first_by_one_key {A : Type} (k : A -> string) (a : string) (l : list A) :
  (∀ x, x ∈ l → k x = a) → (length (Spec.first_by k l) ≤ 1)%nat.
Proof.
  destruct l as [|x l]; intros H; simpl; [lia|].
  assert (List.filter (fun y => negb (String.eqb (k y) (k x))) (Spec.first_by k l) = [])
    as ->; [|simpl; lia].
  apply bfilter_none. intros y Hy. apply first_by_subset in Hy.
  rewrite (H x), (H y), String.eqb_refl; [done|by right|left].
Qed.

Lemma encountered_elem (search : string -> Z -> Retriever.QueryResult)
    (sub_queries : list SubQuery) (top_k : Z) (h : Retriever.Hit) :
  h ∈ Retriever.encountered search sub_queries top_k ↔
    ∃ sq, sq ∈ sub_queries ∧ h ∈ Retriever.hits (search (text sq) top_k).
Proof.
  unfold Retriever.encountered.
  induction sub_queries as [|sq0 rest IH]; simpl.
  - split; [intros H; by apply elem_of_nil in H|].
    intros (sq & H & _). by apply elem_of_nil in H.
  - rewrite elem_of_app, IH. setoid_rewrite elem_of_cons. split.
    + intros [H|(sq & Hsq & H)]; eauto.
    + intros (sq & [->|Hsq] & H); eauto.
Qed.

Lemma retrieve_parallel_length (search : string -> Z -> Retriever.QueryResult)
    (sub_queries : list SubQuery) (top_k : Z) :
  length (Retriever.retrieve_parallel search sub_queries top_k)
    = length (Spec.first_by Retriever.hit_id
                (Retriever.encountered search sub_queries top_k)).
Proof.
  unfold Retriever.retrieve_parallel.
  rewrite (Permutation_length (sort_desc_perm relevance_score _)).
  by rewrite collect_first_by, length_map.
Qed.

(** X1. [retrieve_parallel] returns the empty list exactly when no
    sub-query yields a hit; with an empty list of sub-queries, or a store
    without documents, nothing is retrieved. *)
Theorem retrieve_parallel_empty_iff
    (search : string -> Z -> Retriever.QueryResult)
    (sub_queries : list SubQuery) (top_k : Z) :
  Retriever.retrieve_parallel search sub_queries top_k = []
  ↔ ∀ sq, sq ∈ sub_queries → Retriever.hits (search (text sq) top_k) = [].
Proof.
  rewrite <- length_zero_iff_nil, retrieve_parallel_length, length_zero_iff_nil,
    first_by_nil_iff.
  split.
  - intros Hnil sq Hsq.
    destruct (Retriever.hits (search (text sq) top_k)) as [|h hs] eqn:E; [done|].
    assert (h ∈ Retriever.encountered search sub_queries top_k) as Hin.
    { apply encountered_elem. exists sq. rewrite E. split; [done|left]. }
    rewrite Hnil in Hin. by apply elem_of_nil in Hin.
  - intros Hall.
    destruct (Retriever.encountered search sub_queries top_k) as [|h hs] eqn:E; [done|].
    assert (h ∈ Retriever.encountered search sub_queries top_k) as Hin
      by (rewrite E; left).
    apply encountered_elem in Hin as (sq & Hsq & Hh).
    rewrite (Hall sq Hsq) in Hh. by apply elem_of_nil in Hh.
Qed.

(** X2. When no result of the store carries a list of ids, every hit
    gets the empty string as id, so [retrieve_parallel] returns at most
    one chunk, however many documents were found. *)
Theorem retrieve_parallel_without_ids
    (search : string -> Z -> Retriever.QueryResult)
    (sub_queries : list SubQuery) (top_k : Z) :
  (∀ sq, sq ∈ sub_queries →
         Retriever.ids (search (text sq) top_k) = None
         ∨ Retriever.ids (search (text sq) top_k) = Some []) →
  (length (Retriever.retrieve_parallel search sub_queries top_k) ≤ 1)%nat
  ∧ ∀ c, c ∈ Retriever.retrieve_parallel search sub_queries top_k → chunk_id c = "".
Proof.
  intros Hids.
  assert (∀ h, h ∈ Retriever.encountered search sub_queries top_k →
               Retriever.hit_id h = "") as Hempty.
  { intros h Hh. apply encountered_elem in Hh as (sq & Hsq & Hh).
    unfold Retriever.hits in Hh.
    destruct (Retriever.documents _) as [[|docs ?]|]; try by apply elem_of_nil in Hh.
    apply zip4_elem in Hh as [Hid _].
    destruct (Hids sq Hsq) as [E|E]; rewrite E in Hid; simpl in Hid;
      by apply elem_of_replicate in Hid as [-> _]. }
  split.
  - rewrite retrieve_parallel_length. by apply (first_by_one_key _ "").
  - intros c Hc. apply retrieve_parallel_elem in Hc as (h & Hh & ->).
    rewrite make_chunk_id. by apply Hempty.
Qed.

Lemma retrieve_parallel_without_ids_witness :
  let search := fun (_ : string) (_ : Z) =>
    Retriever.mkQueryResult (Some [["first text"; "second text"]]) None None None in
  Retriever.ids (search "q" 5%Z) = None
  ∧ (length (Retriever.retrieve_parallel search [mkSubQuery "q" 1] 5) ≤ 1)%nat.
Proof.
  intros search. split; [reflexivity|].
  apply (retrieve_parallel_without_ids search [mkSubQuery "q" 1] 5).
  intros sq _. by left.
Defined.

(** X3. When no result of the store carries a list of distances, the
    distance of every hit is taken to be 0, so every chunk
    [retrieve_parallel] returns has the relevance score 1. *)
Theorem retrieve_parallel_without_distances
    (search : string -> Z -> Retriever.QueryResult)
    (sub_queries : list SubQuery) (top_k : Z) (c : RetrievedChunk) :
  (∀ sq, sq ∈ sub_queries →
         Retriever.distances (search (text sq) top_k) = None
         ∨ Retriever.distances (search (text sq) top_k) = Some []) →
  c ∈ Retriever.retrieve_parallel search sub_queries top_k →
  relevance_score c = 1%Q.
Proof.
  intros Hds Hc. apply retrieve_parallel_elem in Hc as (h & Hh & ->).
  rewrite make_chunk_score.
  apply encountered_elem in Hh as (sq & Hsq & Hh).
  unfold Retriever.hits in Hh.
  destruct (Retriever.documents _) as [[|docs ?]|]; try by apply elem_of_nil in Hh.
  apply zip4_elem in Hh as [_ Hd].
  destruct (Hds sq Hsq) as [E|E]; rewrite E in Hd; simpl in Hd;
    by apply elem_of_replicate in Hd as [-> _].
Qed.

Lemma retrieve_parallel_without_distances_witness :
  let search := fun (_ : string) (_ : Z) =>
    Retriever.mkQueryResult (Some [["first text"]]) None (Some [["id-1"]]) None in
  let c := mkRetrievedChunk "first text" "unknown" "unknown" 1 "id-1" in
  Retriever.distances (search "q" 5%Z) = None
  ∧ c ∈ Retriever.retrieve_parallel search [mkSubQuery "q" 1] 5
  ∧ relevance_score c = 1%Q.
Proof.
  intros search c.
  assert (c ∈ Retriever.retrieve_parallel search [mkSubQuery "q" 1] 5) as Hc
    by (vm_compute; left).
  split; [reflexivity|]. split; [exact Hc|].
  apply (retrieve_parallel_without_distances search [mkSubQuery "q" 1] 5 c);
    [|exact Hc].
  intros sq _. by left.
Defined.

(** X4. Whatever distances the store reports, every chunk
    [retrieve_parallel] returns has a relevance score between 0 and 1. *)
Theorem retrieve_parallel_scores_in_unit
    (search : string -> Z -> Retriever.QueryResult)
    (sub_queries : list SubQuery) (top_k : Z) (c : RetrievedChunk) :
  c ∈ Retriever.retrieve_parallel search sub_queries top_k →
  (0 <= relevance_score c)%Q ∧ (relevance_score c <= 1)%Q.
Proof.
  intros Hc. apply in_unit_iff.
  pose proof (retrieve_parallel_in_unit search sub_queries top_k) as H.
  rewrite Forall_forall in H. by apply H.
Qed.

Lemma retrieve_parallel_scores_in_unit_witness :
  let search := fun (_ : string) (_ : Z) =>
    Retriever.mkQueryResult (Some [["first text"]]) None (Some [["id-1"]])
      (Some [[Some (-3)%Q]]) in
  let c := mkRetrievedChunk "first text" "unknown" "unknown" 1 "id-1" in
  c ∈ Retriever.retrieve_parallel search [mkSubQuery "q" 1] 5
  ∧ (0 <= relevance_score c)%Q ∧ (relevance_score c <= 1)%Q.
Proof.
  intros search c.
  assert (c ∈ Retriever.retrieve_parallel search [mkSubQuery "q" 1] 5) as Hc
    by (vm_compute; left).
  split; [exact Hc|].
  exact (retrieve_parallel_scores_in_unit search [mkSubQuery "q" 1] 5 c Hc).
Defined.

(** X5. [retrieve_parallel] never returns more chunks than the store
    gave hits; when the store gives at most [n] hits for each sub-query,
    it returns at most [n] chunks per sub-query. *)
Theorem retrieve_parallel_bounded
    (search : string -> Z -> Retriever.QueryResult)
    (sub_queries : list SubQuery) (top_k : Z) (n : nat) :
  (∀ sq, sq ∈ sub_queries →
         (length (Retriever.hits (search (text sq) top_k)) ≤ n)%nat) →
  (length (Retriever.retrieve_parallel search sub_queries top_k)
     ≤ n * length sub_queries)%nat.
Proof.
  intros Hn. rewrite retrieve_parallel_length.
  etrans; [apply first_by_length|].
  unfold Retriever.encountered.
  induction sub_queries as [|sq rest IH]; simpl; [lia|].
  rewrite length_app.
  pose proof (Hn sq ltac:(left)).
  assert (∀ sq', sq' ∈ rest →
            (length (Retriever.hits (search (text sq') top_k)) ≤ n)%nat) as Hrest
    by (intros sq' H'; apply Hn; by right).
  specialize (IH Hrest). lia.
Qed.

Lemma retrieve_parallel_bounded_witness :
  (∀ sq, sq ∈ Sample.single_plan "deploy docker" →
     (length (Retriever.hits (Sample.small_store (text sq) 5)) ≤ 1)%nat)
  ∧ (length (Retriever.retrieve_parallel Sample.small_store
               (Sample.single_plan "deploy docker") 5) ≤ 1 * 1)%nat.
Proof.
  assert (∀ sq, sq ∈ Sample.single_plan "deploy docker" →
            (length (Retriever.hits (Sample.small_store (text sq) 5)) ≤ 1)%nat) as H.
  { intros sq Hsq. apply list_elem_of_singleton in Hsq as ->. vm_compute. lia. }
  split; [exact H|].
  exact (retrieve_parallel_bounded Sample.small_store
           (Sample.single_plan "deploy docker") 5 1 H).
Defined.

(** ** More on the validator *)

Lemma lower_char_idemp (c : ascii) : Py.lower_char (Py.lower_char c) = Py.lower_char c.
Proof. by destruct c as [[] [] [] [] [] [] [] []]. Qed.

Lemma lower_idemp (s : string) : Py.lower (Py.lower s) = Py.lower s.
Proof. induction s as [|c s IH]; simpl; [done|]. by rewrite lower_char_idemp, IH. Qed.

Lemma word_set_empty_iff (s : string) : Validator.word_set s = ∅ ↔ Py.split s = [].
Proof.
  unfold Validator.word_set. rewrite split_lower. unfold Spec.tokens.
  destruct (Py.split s) as [|w ws]; simpl; [done|].
  split; [|done]. intros H. exfalso.
  assert (Py.lower w ∈ (∅ : gset string)) as Hin by (rewrite <- H; set_solver).
  by apply not_elem_of_empty in Hin.
Qed.

Lemma elem_of_word_set (s w : string) : w ∈ Validator.word_set s ↔ w ∈ Spec.tokens s.
Proof. unfold Validator.word_set. by rewrite split_lower, elem_of_list_to_set. Qed.

(** X6. [validate_batch] keeps exactly the chunks whose confidence
    reaches the threshold: an entry is in the validated list if and only
    if it is the entry of an input chunk, with the confidence and the
    reasoning of [_validate_single], and that confidence is at least
    [min_confidence]. *)
Theorem validate_batch_keeps_exactly_confident
    (min_confidence : Q) (chunks : list RetrievedChunk) (sub_queries : list SubQuery)
    (original_query : string) (vc : ValidatedChunk) :
  vc ∈ (Validator.validate_batch min_confidence chunks sub_queries original_query).1.1
  ↔ ∃ c, c ∈ chunks
         ∧ (min_confidence <= (Validator._validate_single c original_query).1)%Q
         ∧ vc = mkValidatedChunk c (Validator._validate_single c original_query).1
                  (Validator._validate_single c original_query).2.
Proof.
  rewrite (validated_perm min_confidence original_query chunks sub_queries).
  rewrite list_elem_of_fmap. split.
  - intros (c & -> & Hc). apply elem_of_bfilter in Hc as [Hc Hle].
    apply Qle_bool_iff in Hle. by exists c.
  - intros (c & Hc & Hle & ->). exists c. split; [done|].
    apply elem_of_bfilter. split; [done|]. by apply Qle_bool_iff.
Qed.

Lemma overlap_coverage_full (query_words chunk_words : gset string) :
  query_words ≠ ∅ → query_words ⊆ chunk_words →
  (Validator.overlap_coverage query_words chunk_words == 1)%Q.
Proof.
  intros Hne Hsub. unfold Validator.overlap_coverage.
  assert (query_words ∩ chunk_words = query_words) as -> by set_solver.
  destruct (size query_words) as [|m] eqn:E.
  - apply size_empty_iff in E. exfalso. apply Hne. by apply leibniz_equiv.
  - apply Qmult_inv_r. change 0%Q with (inject_Z 0). rewrite inject_Z_injective. lia.
Qed.

(** X7. The confidence of a chunk lies between half its relevance score
    and half its relevance score plus 0.5. It is the lower bound when the
    query has no word, and the upper bound when the query has a word and
    all its words occur in the chunk. *)
Theorem confidence_bounds (c : RetrievedChunk) (query : string) :
  let conf := (Validator._validate_single c query).1 in
  ((5 # 10) * relevance_score c <= conf)%Q
  ∧ (conf <= (5 # 10) * relevance_score c + (5 # 10))%Q
  ∧ (Py.split query = [] → (conf == (5 # 10) * relevance_score c)%Q)
  ∧ (Py.split query ≠ [] →
     (∀ w, w ∈ Spec.tokens query → w ∈ Spec.tokens (content c)) →
     (conf == (5 # 10) * relevance_score c + (5 # 10))%Q).
Proof.
  simpl.
  destruct (overlap_coverage_in_unit (Validator.word_set query)
              (Validator.word_set (content c))) as [Clo Chi].
  split; [|split; [|split]].
  - set (cov := Validator.overlap_coverage _ _) in *. lra.
  - set (cov := Validator.overlap_coverage _ _) in *. lra.
  - intros Hq. apply word_set_empty_iff in Hq.
    unfold Validator.overlap_coverage. rewrite Hq, size_empty. lra.
  - intros Hq Hall.
    rewrite overlap_coverage_full; [lra| |].
    + by rewrite word_set_empty_iff.
    + intros w Hw. apply elem_of_word_set, Hall. by apply elem_of_word_set.
Qed.

Lemma confidence_bounds_witness :
  Py.split "docker image" ≠ []
  ∧ (∀ w, w ∈ Spec.tokens "docker image" → w ∈ Spec.tokens (content Sample.docker_chunk))
  ∧ ((Validator._validate_single Sample.docker_chunk "docker image").1
       == (5 # 10) * relevance_score Sample.docker_chunk + (5 # 10))%Q.
Proof.
  assert (Py.split "docker image" ≠ []) as H1 by done.
  assert (∀ w, w ∈ Spec.tokens "docker image"
               → w ∈ Spec.tokens (content Sample.docker_chunk)) as H2.
  { intros w Hw. vm_compute in Hw.
    apply elem_of_cons in Hw as [->|Hw]; [vm_compute; set_solver|].
    apply list_elem_of_singleton in Hw as ->. vm_compute. set_solver. }
  split; [exact H1|]. split; [exact H2|].
  exact (proj2 (proj2 (proj2 (confidence_bounds Sample.docker_chunk "docker image")))
           H1 H2).
Defined.

(** X8. With a threshold above 0.4, no chunk [validate_batch] keeps
    carries the reasoning of the lowest tier. *)
Theorem validated_never_poor
    (min_confidence : Q) (chunks : list RetrievedChunk) (sub_queries : list SubQuery)
    (original_query : string) (vc : ValidatedChunk) :
  (4 # 10 < min_confidence)%Q →
  vc ∈ (Validator.validate_batch min_confidence chunks sub_queries original_query).1.1 →
  reasoning vc ≠ "Poor relevance, likely not useful".
Proof.
  intros Hmc Hvc.
  rewrite (validated_perm min_confidence original_query chunks sub_queries) in Hvc.
  apply list_elem_of_fmap in Hvc as (c & -> & Hc).
  apply elem_of_bfilter in Hc as [_ Hle]. apply Qle_bool_iff in Hle.
  unfold Spec.validated_entry, Validator._validate_single in *. simpl in *.
  set (conf := (_ + _)%Q) in *.
  assert (Py.Qlt_bool (4 # 10) conf = true) as H4.
  { unfold Py.Qlt_bool. apply negb_true_iff, not_true_is_false.
    intros H. apply Qle_bool_iff in H. lra. }
  rewrite H4.
  destruct (Py.Qlt_bool (8 # 10) conf); [done|].
  destruct (Py.Qlt_bool (6 # 10) conf); done.
Qed.

Lemma validated_never_poor_witness :
  (4 # 10 < 6 # 10)%Q
  ∧ (∀ vc, vc ∈ (Validator.validate_batch (6 # 10) [Sample.docker_chunk]
                   [Sample.docker_query] "build the docker image").1.1 →
           reasoning vc ≠ "Poor relevance, likely not useful").
Proof.
  assert (4 # 10 < 6 # 10)%Q as H by done.
  split; [exact H|]. intros vc.
  exact (validated_never_poor (6 # 10) [Sample.docker_chunk] [Sample.docker_query]
           "build the docker image" vc H).
Defined.

Lemma note_missing_loop (covered : gset string) (sub_queries : list SubQuery)
    (missing : list string) :
  fold_left (Validator.note_missing covered) sub_queries missing =
    missing ++ List.filter (fun t => bool_decide (t ∉ covered)) (map text sub_queries).
Proof.
  revert missing. induction sub_queries as [|sq rest IH]; intros missing; simpl.
  - by rewrite app_nil_r.
  - rewrite IH. unfold Validator.note_missing.
    destruct (decide (text sq ∈ covered)) as [Hc|Hc].
    + rewrite bool_decide_eq_false_2; [done|]. intros H. by apply H.
    + rewrite bool_decide_eq_true_2 by done. by rewrite <- app_assoc.
Qed.

Lemma uncovered_iff (sub_queries : list SubQuery) (vcs : list ValidatedChunk)
    (sq : SubQuery) :
  sq ∈ sub_queries →
  bool_decide (text sq ∉ fold_left (Validator.mark sub_queries) vcs ∅)
    = forallb (fun vc => negb (Validator._topic_coverage (chunk vc) (text sq))) vcs.
Proof.
  intros Hsq. apply eq_true_iff_eq.
  rewrite bool_decide_eq_true, forallb_forall, covered_topics_spec. split.
  - intros Hn vc Hvc. apply negb_true_iff, not_true_is_false. intros Hc.
    apply Hn. right. exists vc, sq. by rewrite list_elem_of_In.
  - intros Hall [H|(vc & sq' & Hvc & _ & _ & Hc)]; [by apply not_elem_of_empty in H|].
    apply list_elem_of_In, Hall in Hvc. by rewrite Hc in Hvc.
Qed.

(** X9. The missing topics are the texts of the sub-queries that none of
    the top 5 validated chunks covers, in the order of the sub-queries; a
    text that two uncovered sub-queries share is listed twice. *)
Theorem missing_topics_are_uncovered_texts
    (min_confidence : Q) (chunks : list RetrievedChunk) (sub_queries : list SubQuery)
    (original_query : string) :
  let r := Validator.validate_batch min_confidence chunks sub_queries original_query in
  r.1.2 =
    List.filter
      (fun t => forallb (fun vc => negb (Validator._topic_coverage (chunk vc) t))
                  (take 5 r.1.1))
      (map text sub_queries).
Proof.
  destruct chunks as [|c chunks]; simpl.
  - symmetry. by apply bfilter_all.
  - rewrite note_missing_loop. simpl. apply bfilter_ext_in. intros t Ht.
    apply list_elem_of_fmap in Ht as (sq & -> & Hsq). by apply uncovered_iff.
Qed.

Lemma topic_coverage_blank (c : RetrievedChunk) (t : string) :
  Py.split t = [] → Validator._topic_coverage c t = false.
Proof.
  intros Ht. apply word_set_empty_iff in Ht.
  unfold Validator._topic_coverage, Validator.overlap_coverage.
  by rewrite Ht, size_empty.
Qed.

(** X10. A sub-query whose text has no word is never covered: its text
    is among the missing topics, and when its priority is 1 a
    re-retrieval is asked for. *)
Theorem blank_sub_query_is_missing
    (min_confidence : Q) (chunks : list RetrievedChunk) (sub_queries : list SubQuery)
    (original_query : string) (sq : SubQuery) :
  sq ∈ sub_queries →
  Py.split (text sq) = [] →
  let r := Validator.validate_batch min_confidence chunks sub_queries original_query in
  text sq ∈ r.1.2 ∧ (priority sq = 1%Z → r.2 = true).
Proof.
  intros Hsq Hblank. simpl.
  assert (text sq ∈ (Validator.validate_batch min_confidence chunks sub_queries
                       original_query).1.2) as Hmissing.
  { destruct chunks as [|c chunks]; simpl.
    - apply list_elem_of_fmap. eauto.
    - apply missing_topics_spec. right. split; [|eauto].
      rewrite covered_topics_spec.
      intros [H|(vc & sq' & _ & _ & _ & Hc)]; [by apply not_elem_of_empty in H|].
      by rewrite topic_coverage_blank in Hc. }
  split; [exact Hmissing|]. intros Hp.
  destruct chunks as [|c chunks]; [done|]. simpl in *.
  apply orb_true_iff. right. apply existsb_exists. exists sq.
  split; [by apply list_elem_of_In|].
  apply andb_true_iff. split; [by apply bool_decide_eq_true|by apply Z.eqb_eq].
Qed.

Lemma blank_sub_query_is_missing_witness :
  let subs := [Sample.docker_query; mkSubQuery "   " 1] in
  mkSubQuery "   " 1 ∈ subs
  ∧ Py.split (text (mkSubQuery "   " 1)) = []
  ∧ (Validator.validate_batch (6 # 10) [Sample.docker_chunk] subs "docker").2 = true.
Proof.
  intros subs.
  assert (mkSubQuery "   " 1 ∈ subs) as H1 by (right; left).
  assert (Py.split (text (mkSubQuery "   " 1)) = []) as H2 by reflexivity.
  split; [exact H1|]. split; [exact H2|].
  exact (proj2 (blank_sub_query_is_missing (6 # 10) [Sample.docker_chunk] subs "docker"
                  (mkSubQuery "   " 1) H1 H2) eq_refl).
Defined.

Lemma word_set_lower (s : string) : Validator.word_set (Py.lower s) = Validator.word_set s.
Proof. unfold Validator.word_set. by rewrite lower_idemp. Qed.

(** X11. Scoring ignores letter case: lowering the query, or the content
    of the chunk, changes neither the confidence and reasoning of
    [_validate_single] nor the answer of [_topic_coverage]. *)
Theorem scoring_ignores_case (c : RetrievedChunk) (query : string) :
  let lowered :=
    mkRetrievedChunk (Py.lower (content c)) (document c) (section c)
      (relevance_score c) (chunk_id c) in
  Validator._validate_single c (Py.lower query) = Validator._validate_single c query
  ∧ Validator._validate_single lowered query = Validator._validate_single c query
  ∧ Validator._topic_coverage c (Py.lower query) = Validator._topic_coverage c query
  ∧ Validator._topic_coverage lowered query = Validator._topic_coverage c query.
Proof.
  unfold Validator._validate_single, Validator._topic_coverage. simpl.
  by rewrite !word_set_lower.
Qed.

Lemma keep_loop_length (min_confidence : Q) (original_query : string)
    (chunks : list RetrievedChunk) (sub_queries : list SubQuery) :
  (length (Validator.validate_batch min_confidence chunks sub_queries
             original_query).1.1 ≤ length chunks)%nat.
Proof.
  rewrite (Permutation_length
             (validated_perm min_confidence original_query chunks sub_queries)).
  rewrite length_map. apply filter_length_le.
Qed.

(** X12. [validate_batch] never returns more validated chunks than it was
    given chunks, and when it is given fewer than 3 chunks it always asks
    for a re-retrieval. *)
Theorem few_chunks_force_reretrieval
    (min_confidence : Q) (chunks : list RetrievedChunk) (sub_queries : list SubQuery)
    (original_query : string) :
  let r := Validator.validate_batch min_confidence chunks sub_queries original_query in
  (length r.1.1 ≤ length chunks)%nat
  ∧ ((length chunks < 3)%nat → r.2 = true).
Proof.
  simpl. split; [apply keep_loop_length|]. intros Hlen.
  pose proof (keep_loop_length min_confidence original_query chunks sub_queries) as Hle.
  destruct chunks as [|c chunks]; [done|]. simpl in *.
  apply orb_true_iff. left. apply Nat.ltb_lt. lia.
Qed.

Lemma few_chunks_force_reretrieval_witness :
  (length [Sample.docker_chunk] < 3)%nat
  ∧ (Validator.validate_batch (1 # 10) [Sample.docker_chunk] [Sample.docker_query]
       "build the docker image").2 = true.
Proof.
  assert (length [Sample.docker_chunk] < 3)%nat as H by (simpl; lia).
  split; [exact H|].
  exact (proj2 (few_chunks_force_reretrieval (1 # 10) [Sample.docker_chunk]
                  [Sample.docker_query] "build the docker image") H).
Defined.

(** X13. A chunk covers a sub-query exactly when more than three tenths
    of the distinct words of the sub-query occur in the chunk; a covered
    sub-query therefore shares a word with the chunk. *)
Theorem topic_coverage_iff (c : RetrievedChunk) (sub_query : string) :
  let query_words := Validator.word_set sub_query in
  let chunk_words := Validator.word_set (content c) in
  (Validator._topic_coverage c sub_query = true
   ↔ (3 * size query_words < 10 * size (query_words ∩ chunk_words))%nat)
  ∧ (Validator._topic_coverage c sub_query = true →
     ∃ w, w ∈ Spec.tokens sub_query ∧ w ∈ Spec.tokens (content c)).
Proof.
  simpl.
  set (qw := Validator.word_set sub_query).
  set (cw := Validator.word_set (content c)).
  assert (Validator._topic_coverage c sub_query = true
          ↔ (3 * size qw < 10 * size (qw ∩ cw))%nat) as Hiff.
  { unfold Validator._topic_coverage, Validator.overlap_coverage, Py.Qlt_bool.
    fold qw cw. rewrite negb_true_iff, <- not_true_iff_false, Qle_bool_iff.
    assert (size (qw ∩ cw) ≤ size qw)%nat as Hsub by (apply subseteq_size; set_solver).
    destruct (size qw) as [|m] eqn:E.
    - split; [intros H; exfalso; apply H; done|lia].
    - assert (0 < inject_Z (Z.of_nat (S m)))%Q as Hpos.
      { change 0%Q with (inject_Z 0). rewrite <- Zlt_Qlt. lia. }
      assert (¬ inject_Z (Z.of_nat (S m)) == 0)%Q as Hnz.
      { intros H0. rewrite H0 in Hpos. by apply Qlt_irrefl in Hpos. }
      set (n := size (qw ∩ cw)).
      split.
      + intros H. apply Qnot_le_lt in H.
        apply (Qmult_lt_r _ _ _ Hpos) in H.
        unfold Qdiv in H. rewrite <- Qmult_assoc, (Qmult_comm (/ _)), Qmult_inv_r,
          Qmult_1_r in H by exact Hnz.
        unfold Qlt in H. simpl in H. lia.
      + intros H. apply Qlt_not_le.
        apply (Qmult_lt_r _ _ _ Hpos).
        unfold Qdiv. rewrite <- Qmult_assoc, (Qmult_comm (/ _)), Qmult_inv_r,
          Qmult_1_r by exact Hnz.
        unfold Qlt. simpl. lia. }
  split; [exact Hiff|].
  intros Hc. apply Hiff in Hc.
  destruct (size (qw ∩ cw)) as [|k] eqn:E; [lia|].
  assert (qw ∩ cw ≠ ∅) as Hne.
  { intros H. rewrite H, size_empty in E. done. }
  apply set_choose_L in Hne as [w Hw].
  apply elem_of_intersection in Hw as [Hq Hcw].
  exists w. by rewrite <- !elem_of_word_set.
Qed.

Lemma topic_coverage_iff_witness :
  Validator._topic_coverage Sample.docker_chunk "docker image build" = true
  ∧ ∃ w, w ∈ Spec.tokens "docker image build"
         ∧ w ∈ Spec.tokens (content Sample.docker_chunk).
Proof.
  assert (Validator._topic_coverage Sample.docker_chunk "docker image build" = true)
    as H by (vm_compute; reflexivity).
  split; [exact H|].
  exact (proj2 (topic_coverage_iff Sample.docker_chunk "docker image build") H).
Defined.

(** ** More on the orchestrator *)

Lemma expand_loop (sub_queries acc : list SubQuery) :
  fold_left
    (fun expanded sq =>
       (expanded ++ [sq])
         ++ [mkSubQuery ("guide for " +:+ text sq) (priority sq + 1)])
    sub_queries acc
  = acc ++ flat_map
             (fun sq => [sq; mkSubQuery ("guide for " +:+ text sq) (priority sq + 1)])
             sub_queries.
Proof.
  revert acc. induction sub_queries as [|sq rest IH]; intros acc; simpl.
  - by rewrite app_nil_r.
  - rewrite IH, <- !app_assoc. done.
Qed.

(** X14. [_expand_queries] returns twice as many sub-queries as it is
    given: the sub-query at position [i] stays, at position [2 i], and is
    followed, at position [2 i + 1], by its rephrasing, whose text is the
    original text after "guide for " and whose priority is one more. *)
Theorem expand_queries_interleaves (sub_queries : list SubQuery) :
  length (Pipeline._expand_queries sub_queries) = (2 * length sub_queries)%nat
  ∧ ∀ (i : nat) (sq : SubQuery),
      sub_queries !! i = Some sq →
      Pipeline._expand_queries sub_queries !! (2 * i)%nat = Some sq
      ∧ Pipeline._expand_queries sub_queries !! (2 * i + 1)%nat
          = Some (mkSubQuery ("guide for " +:+ text sq) (priority sq + 1)).
Proof.
  unfold Pipeline._expand_queries. rewrite expand_loop, app_nil_l.
  induction sub_queries as [|sq0 rest [IHlen IH]].
  - split; [done|]. intros i sq H. by rewrite lookup_nil in H.
  - split; [simpl in *; lia|]. intros [|i] sq H; simpl in H.
    + injection H as <-. done.
    + destruct (IH i sq H) as [IH1 IH2].
      replace (2 * S i)%nat with (S (S (2 * i))) by lia.
      replace (S (S (2 * i)) + 1)%nat with (S (S (2 * i + 1))) by lia.
      split; [exact IH1|exact IH2].
Qed.

Lemma expand_queries_interleaves_witness :
  [Sample.docker_query] !! 0%nat = Some Sample.docker_query
  ∧ Pipeline._expand_queries [Sample.docker_query] !! 1%nat
      = Some (mkSubQuery "guide for docker image build" 2).
Proof.
  assert ([Sample.docker_query] !! 0%nat = Some Sample.docker_query) as H by done.
  split; [exact H|].
  exact (proj2 (proj2 (expand_queries_interleaves [Sample.docker_query])
                  0%nat Sample.docker_query H)).
Defined.

Lemma sum_Q_between (lo hi : Q) (xs : list Q) (a : Q) :
  Forall (fun x => (lo <= x)%Q ∧ (x <= hi)%Q) xs →
  (a + lo * inject_Z (Z.of_nat (length xs)) <= fold_left Qplus xs a)%Q
  ∧ (fold_left Qplus xs a <= a + hi * inject_Z (Z.of_nat (length xs)))%Q.
Proof.
  intros H. revert a. induction H as [|x xs [Hlo Hhi] _ IH]; intros a;
    cbn [fold_left length].
  - change (inject_Z (Z.of_nat 0)) with 0%Q. split; lra.
  - destruct (IH (a + x)%Q) as [IHlo IHhi].
    rewrite Nat2Z.inj_succ, <- Z.add_1_r, inject_Z_plus.
    change (inject_Z 1) with 1%Q. split; lra.
Qed.

(** X15. The overall confidence is 0 for an empty list and otherwise
    depends on the first three validated chunks only; when the
    confidences of those chunks lie between 0 and 1, so does the overall
    confidence, whatever the confidences of the later chunks. *)
Theorem calculate_confidence_top_three (validated : list ValidatedChunk) :
  Pipeline._calculate_confidence [] = 0%Q
  ∧ Pipeline._calculate_confidence validated
      = Pipeline._calculate_confidence (take 3 validated)
  ∧ (validated ≠ [] →
     (∀ vc, vc ∈ take 3 validated → (0 <= confidence vc)%Q ∧ (confidence vc <= 1)%Q) →
     (0 <= Pipeline._calculate_confidence validated)%Q
     ∧ (Pipeline._calculate_confidence validated <= 1)%Q).
Proof.
  split; [done|]. split.
  - by destruct validated as [|a [|b [|c rest]]].
  - intros Hne Hall. destruct validated as [|vc rest]; [done|].
    unfold Pipeline._calculate_confidence, Pipeline.sum_Q.
    set (top := map confidence (take 3 (vc :: rest))).
    assert (Forall (fun x => (0 <= x)%Q ∧ (x <= 1)%Q) top) as Htop.
    { subst top. apply Forall_forall. intros x Hx.
      apply list_elem_of_fmap in Hx as (v & -> & Hv). by apply Hall. }
    destruct (sum_Q_between 0 1 top 0 Htop) as [Hlo Hhi].
    assert (∃ m, length top = S m) as [m Hm] by (subst top; simpl; eauto).
    rewrite Hm in *.
    assert (0 < inject_Z (Z.of_nat (S m)))%Q as Hpos.
    { change 0%Q with (inject_Z 0). rewrite <- Zlt_Qlt. lia. }
    split.
    + apply Qle_shift_div_l; [done|]. lra.
    + apply Qle_shift_div_r; [done|]. lra.
Qed.

Lemma calculate_confidence_top_three_witness :
  let validated := Cases.four_validated in
  validated ≠ []
  ∧ (∀ vc, vc ∈ take 3 validated → (0 <= confidence vc)%Q ∧ (confidence vc <= 1)%Q)
  ∧ ¬ (confidence (mkValidatedChunk Sample.docker_chunk 5 "Retry retrieval") <= 1)%Q
  ∧ mkValidatedChunk Sample.docker_chunk 5 "Retry retrieval" ∈ validated
  ∧ (0 <= Pipeline._calculate_confidence validated)%Q
  ∧ (Pipeline._calculate_confidence validated <= 1)%Q.
Proof.
  intros validated.
  assert (validated ≠ []) as H1 by done.
  assert (∀ vc, vc ∈ take 3 validated →
                (0 <= confidence vc)%Q ∧ (confidence vc <= 1)%Q) as H2.
  { intros vc Hvc. vm_compute in Hvc.
    apply elem_of_cons in Hvc as [->|Hvc]; [by split|].
    apply elem_of_cons in Hvc as [->|Hvc]; [by split|].
    apply list_elem_of_singleton in Hvc as ->. by split. }
  split; [exact H1|]. split; [exact H2|].
  split; [by intros H|]. split; [by do 3 right; left|].
  exact (proj2 (proj2 (calculate_confidence_top_three validated)) H1 H2).
Defined.

Lemma sum_Z_lengths (validated : list ValidatedChunk) (a : Z) :
  (a <= fold_left Z.add (map (fun vc => Pipeline.len (content (chunk vc))) validated) a)%Z.
Proof.
  revert a. induction validated as [|vc rest IH]; intros a; simpl; [lia|].
  etrans; [|apply IH]. unfold Pipeline.len. lia.
Qed.

(** X16. The estimated token count is at least 100. With the lengths of
    the query, of the answer and of all validated contents counted
    separately, four times the estimate above the overhead of 100 falls
    short of the total number of characters by at most 9. *)
Theorem estimate_tokens_bounds (query answer : string) (validated : list ValidatedChunk) :
  let t := Pipeline._estimate_tokens query answer validated in
  let total :=
    (Pipeline.len query + Pipeline.len answer
     + Pipeline.sum_Z (map (fun vc => Pipeline.len (content (chunk vc))) validated))%Z in
  (100 <= t)%Z ∧ (4 * (t - 100) <= total)%Z ∧ (total <= 4 * (t - 100) + 9)%Z.
Proof.
  simpl. unfold Pipeline._estimate_tokens, Pipeline.sum_Z.
  pose proof (sum_Z_lengths validated 0) as Hsum.
  set (s := fold_left Z.add _ 0%Z) in *.
  assert (0 <= Pipeline.len query)%Z as Hq by (unfold Pipeline.len; lia).
  assert (0 <= Pipeline.len answer)%Z as Ha by (unfold Pipeline.len; lia).
  pose proof (Z.div_mod (Pipeline.len query) 4 ltac:(lia)).
  pose proof (Z.mod_pos_bound (Pipeline.len query) 4 ltac:(lia)).
  pose proof (Z.div_mod (Pipeline.len answer) 4 ltac:(lia)).
  pose proof (Z.mod_pos_bound (Pipeline.len answer) 4 ltac:(lia)).
  pose proof (Z.div_mod s 4 ltac:(lia)).
  pose proof (Z.mod_pos_bound s 4 ltac:(lia)).
  lia.
Qed.

Lemma append_cons (c : ascii) (a b : string) : String c a +:+ b = String c (a +:+ b).
Proof. reflexivity. Qed.

Lemma append_nil_l (b : string) : "" +:+ b = b.
Proof. reflexivity. Qed.

Lemma substring0_length (n : nat) (s : string) :
  String.length (String.substring 0 n s) = (n `min` String.length s)%nat.
Proof.
  revert s. induction n as [|n IH]; intros [|c s]; simpl; try done.
  by rewrite IH.
Qed.

Lemma substring0_prefix (n : nat) (s : string) :
  ∃ rest, s = String.substring 0 n s +:+ rest.
Proof.
  revert s. induction n as [|n IH]; intros [|c s]; simpl.
  - by exists "".
  - by exists (String c s).
  - by exists "".
  - destruct (IH s) as [rest Hrest]. exists rest. rewrite append_cons. by f_equal.
Qed.

Lemma length_append (a b : string) :
  String.length (a +:+ b) = (String.length a + String.length b)%nat.
Proof.
  induction a as [|c a IH]; [done|].
  rewrite append_cons. simpl. by rewrite IH.
Qed.

(** X17. The preview of a content of at most 200 characters is the
    content itself; the preview of a longer content is its first 200
    characters followed by "...", 203 characters in all. No preview is
    longer than 203 characters. *)
Theorem preview_is_bounded (s : string) :
  (String.length (Pipeline.preview s) ≤ 203)%nat
  ∧ ((String.length s ≤ 200)%nat → Pipeline.preview s = s)
  ∧ ((200 < String.length s)%nat →
     String.length (Pipeline.preview s) = 203%nat
     ∧ ∃ first rest, String.length first = 200%nat
                     ∧ s = first +:+ rest
                     ∧ Pipeline.preview s = first +:+ "...").
Proof.
  unfold Pipeline.preview.
  destruct (200 <? String.length s)%nat eqn:E.
  - apply Nat.ltb_lt in E.
    assert (String.length (String.substring 0 200 s) = 200%nat) as Hlen
      by (rewrite substring0_length; lia).
    split; [rewrite length_append, Hlen; simpl; lia|].
    split; [lia|]. intros _.
    split; [rewrite length_append, Hlen; simpl; lia|].
    destruct (substring0_prefix 200 s) as [rest Hrest].
    exists (String.substring 0 200 s), rest. done.
  - apply Nat.ltb_ge in E. split; [lia|]. split; [done|lia].
Qed.

Lemma preview_is_bounded_witness :
  (String.length "short content" ≤ 200)%nat
  ∧ Pipeline.preview "short content" = "short content".
Proof.
  assert (String.length "short content" ≤ 200)%nat as H by (simpl; lia).
  split; [exact H|].
  exact (proj1 (proj2 (preview_is_bounded "short content")) H).
Defined.

Section ProcessFacts.

Variable settings : Config.Settings.
Variable plan : string -> list SubQuery.
Variable search : string -> Z -> Retriever.QueryResult.
Variable synthesize : string -> list ValidatedChunk -> string.
Variable processing_time : Z.

(** What a result of [process] is made of. *)
Lemma process_result (query : string) (max_sources : Z) (r : Pipeline.RAGResult) :
  Pipeline.process settings plan search synthesize processing_time query max_sources
    = Some r →
  let validated := (Pipeline.validated_chunks settings plan search query).2 in
  let shown := Py.slice_to max_sources validated in
  Pipeline.answer r = synthesize query shown
  ∧ mapM Pipeline.source_of shown = Some (Pipeline.sources r)
  ∧ Pipeline.metadata r =
      Models.mkQueryMetadata processing_time
        (Pipeline._estimate_tokens query (synthesize query shown) validated)
        (Pipeline._calculate_confidence validated)
        (map text (plan query))
        (Config.synthesizer_model settings).
Proof.
  unfold Pipeline.process.
  assert ((Pipeline.validated_chunks settings plan search query).1 = plan query) as Hplan.
  { unfold Pipeline.validated_chunks.
    destruct (Validator.validate_batch _ _ _ _) as [[validated missing] needs].
    by destruct needs. }
  destruct (Pipeline.validated_chunks settings plan search query)
    as [sub_queries validated].
  simpl in *. subst sub_queries.
  destruct (mapM Pipeline.source_of (Py.slice_to max_sources validated))
    as [srcs|]; simpl; [|done].
  unfold Models.new_metadata.
  destruct (Models.in_unit _); simpl; [|done].
  by intros [= <-].
Qed.

Lemma no_hits_no_chunks (query : string) :
  (∀ (t : string) (k : Z), Retriever.hits (search t k) = []) →
  Pipeline.validated_chunks settings plan search query = (plan query, []).
Proof.
  intros Hnone.
  assert (∀ sqs k, Retriever.retrieve_parallel search sqs k = []) as Hempty.
  { intros sqs k. unfold Retriever.retrieve_parallel.
    rewrite collect_first_by.
    assert (Retriever.encountered search sqs k = []) as ->; [|done].
    unfold Retriever.encountered.
    induction sqs as [|sq rest IH]; simpl; [done|]. by rewrite Hnone, IH. }
  unfold Pipeline.validated_chunks. rewrite !Hempty. done.
Qed.

End ProcessFacts.

(** X18. The result of [process] lists as many sources as the slice
    [validated[:max_sources]] holds: for a bound that is not negative, the
    smaller of the bound and the number of validated chunks; for a
    negative bound, the number of validated chunks less the absolute
    value of the bound, and none if that is negative. *)
Theorem process_source_count
    (settings : Config.Settings) (plan : string -> list SubQuery)
    (search : string -> Z -> Retriever.QueryResult)
    (synthesize : string -> list ValidatedChunk -> string) (processing_time : Z)
    (query : string) (max_sources : Z) (r : Pipeline.RAGResult) :
  Pipeline.process settings plan search synthesize processing_time query max_sources
    = Some r →
  let n := length (Pipeline.validated_chunks settings plan search query).2 in
  ((0 <= max_sources)%Z →
   length (Pipeline.sources r) = (Z.to_nat max_sources `min` n)%nat)
  ∧ ((max_sources < 0)%Z →
     length (Pipeline.sources r) = (n - Z.to_nat (- max_sources))%nat).
Proof.
  intros Hr. apply process_result in Hr as (_ & Hsrc & _).
  apply length_mapM in Hsrc. simpl. rewrite <- Hsrc.
  unfold Py.slice_to. split; intros Hm.
  - apply Z.leb_le in Hm. rewrite Hm. apply length_take.
  - apply Z.leb_gt in Hm. rewrite Hm. rewrite length_take. lia.
Qed.

Lemma process_source_count_witness :
  ∃ r, Pipeline.process Config.defaults Sample.single_plan Sample.small_store
         (fun _ _ => "answer") 12 "deploy docker" 1 = Some r
       ∧ length (Pipeline.sources r) = 1%nat.
Proof.
  destruct (Pipeline.process Config.defaults Sample.single_plan Sample.small_store
              (fun _ _ => "answer") 12 "deploy docker" 1) as [r|] eqn:E.
  - exists r. split; [reflexivity|].
    rewrite (proj1 (process_source_count _ _ _ _ _ _ _ r E)) by lia.
    vm_compute. reflexivity.
  - vm_compute in E. discriminate E.
Defined.

(** X19. When the store has no hit for any text, a result that [process]
    returns has no sources and the confidence 0; its answer is what the
    synthesizer gives for no chunk, and its token estimate counts the
    query, the answer and the overhead only. *)
Theorem process_without_hits
    (settings : Config.Settings) (plan : string -> list SubQuery)
    (search : string -> Z -> Retriever.QueryResult)
    (synthesize : string -> list ValidatedChunk -> string) (processing_time : Z)
    (query : string) (max_sources : Z) (r : Pipeline.RAGResult) :
  (∀ (t : string) (k : Z), Retriever.hits (search t k) = []) →
  Pipeline.process settings plan search synthesize processing_time query max_sources
    = Some r →
  Pipeline.sources r = []
  ∧ Models.confidence (Pipeline.metadata r) = 0%Q
  ∧ Pipeline.answer r = synthesize query []
  ∧ Models.tokens_used (Pipeline.metadata r)
      = (Pipeline.len query / 4 + Pipeline.len (Pipeline.answer r) / 4 + 100)%Z.
Proof.
  intros Hnone Hr.
  apply process_result in Hr as (Hans & Hsrc & Hmeta). simpl in *.
  rewrite (no_hits_no_chunks settings plan search query Hnone) in *. simpl in *.
  assert (Py.slice_to max_sources ([] : list ValidatedChunk) = []) as Hshown.
  { unfold Py.slice_to. by destruct (0 <=? max_sources)%Z; rewrite take_nil. }
  rewrite Hshown in *. simpl in Hsrc. injection Hsrc as <-.
  rewrite Hmeta, Hans. simpl.
  unfold Pipeline._estimate_tokens, Pipeline.sum_Z. simpl.
  by rewrite Z.add_0_r.
Qed.

Lemma process_without_hits_witness :
  ∃ r, (∀ (t : string) (k : Z), Retriever.hits (Sample.empty_store t k) = [])
       ∧ Pipeline.process Config.defaults Sample.single_plan Sample.empty_store
           (fun _ _ => "I do not know.") 12 "deploy docker" 5 = Some r
       ∧ Pipeline.sources r = []
       ∧ Models.confidence (Pipeline.metadata r) = 0%Q.
Proof.
  assert (∀ (t : string) (k : Z), Retriever.hits (Sample.empty_store t k) = []) as H
    by done.
  destruct (Pipeline.process Config.defaults Sample.single_plan Sample.empty_store
              (fun _ _ => "I do not know.") 12 "deploy docker" 5) as [r|] eqn:E.
  - exists r. split; [exact H|]. split; [reflexivity|].
    destruct (process_without_hits _ _ _ _ _ _ _ r H E) as (Hs & Hc & _).
    by split.
  - vm_compute in E. discriminate E.
Defined.

Lemma slice_to_lookup {A : Type} (n : Z) (l : list A) (i : nat) (x : A) :
  Py.slice_to n l !! i = Some x → l !! i = Some x.
Proof.
  unfold Py.slice_to. destruct (0 <=? n)%Z; intros H;
    by apply lookup_take_Some in H as [H _].
Qed.

Lemma source_of_score (vc : ValidatedChunk) (s : Models.Source) :
  Pipeline.source_of vc = Some s → Models.relevance_score s = confidence vc.
Proof.
  unfold Pipeline.source_of, Models.new_source.
  destruct (Models.in_unit _); [|done]. by intros [= <-].
Qed.

(** X20. When the first validation does not ask for a re-retrieval, the
    validated list goes to synthesis as it is: it holds at least 3
    chunks, and the sources of the result are in descending order of
    relevance score. *)
Theorem process_without_retry
    (settings : Config.Settings) (plan : string -> list SubQuery)
    (search : string -> Z -> Retriever.QueryResult)
    (synthesize : string -> list ValidatedChunk -> string) (processing_time : Z)
    (query : string) (max_sources : Z) (r : Pipeline.RAGResult) :
  let first_pass :=
    Validator.validate_batch (Pipeline.min_confidence settings)
      (Retriever.retrieve_parallel search (plan query) 5) (plan query) query in
  first_pass.2 = false →
  Pipeline.process settings plan search synthesize processing_time query max_sources
    = Some r →
  (Pipeline.validated_chunks settings plan search query).2 = first_pass.1.1
  ∧ (3 ≤ length first_pass.1.1)%nat
  ∧ Spec.descending Models.relevance_score (Pipeline.sources r).
Proof.
  simpl. intros Hneeds Hr.
  assert ((Pipeline.validated_chunks settings plan search query).2 =
          (Validator.validate_batch (Pipeline.min_confidence settings)
             (Retriever.retrieve_parallel search (plan query) 5) (plan query) query).1.1)
    as Hfinal.
  { unfold Pipeline.validated_chunks.
    destruct (Validator.validate_batch _ _ _ _) as [[validated missing] needs].
    simpl in Hneeds. by subst needs. }
  split; [exact Hfinal|]. split.
  - destruct (Retriever.retrieve_parallel search (plan query) 5) as [|c chunks];
      [done|].
    simpl in *. apply orb_false_iff in Hneeds as [Hlen _].
    apply Nat.ltb_ge in Hlen. exact Hlen.
  - apply process_result in Hr as (_ & Hsrc & _). simpl in Hsrc.
    apply mapM_Some_1 in Hsrc. rewrite Hfinal in Hsrc.
    pose proof (sort_desc_descending confidence) as Hsorted.
    assert (Spec.descending confidence
              (Validator.validate_batch (Pipeline.min_confidence settings)
                 (Retriever.retrieve_parallel search (plan query) 5) (plan query)
                 query).1.1) as Hdesc.
    { destruct (Retriever.retrieve_parallel search (plan query) 5) as [|c chunks]; simpl.
      - intros i j a b _ H. by rewrite lookup_nil in H.
      - apply Hsorted. }
    intros i j a b Hij Ha Hb.
    destruct (Forall2_lookup_r _ _ _ _ _ Hsrc Ha) as (va & Hva & Hsa).
    destruct (Forall2_lookup_r _ _ _ _ _ Hsrc Hb) as (vb & Hvb & Hsb).
    apply slice_to_lookup in Hva, Hvb.
    rewrite (source_of_score _ _ Hsa), (source_of_score _ _ Hsb).
    by apply (Hdesc i j).
Qed.

Lemma process_without_retry_witness :
  ∃ r, (Validator.validate_batch (Pipeline.min_confidence Config.defaults)
          (Retriever.retrieve_parallel Cases.rich_store
             (Sample.single_plan "docker image") 5)
          (Sample.single_plan "docker image") "docker image").2 = false
       ∧ Pipeline.process Config.defaults Sample.single_plan Cases.rich_store
           (fun _ _ => "answer") 12 "docker image" 2 = Some r
       ∧ Spec.descending Models.relevance_score (Pipeline.sources r).
Proof.
  assert ((Validator.validate_batch (Pipeline.min_confidence Config.defaults)
             (Retriever.retrieve_parallel Cases.rich_store
                (Sample.single_plan "docker image") 5)
             (Sample.single_plan "docker image") "docker image").2 = false) as H
    by (vm_compute; reflexivity).
  destruct (Pipeline.process Config.defaults Sample.single_plan Cases.rich_store
              (fun _ _ => "answer") 12 "docker image" 2) as [r|] eqn:E.
  - exists r. split; [exact H|]. split; [reflexivity|].
    exact (proj2 (proj2 (process_without_retry _ _ _ _ _ _ _ r H E))).
  - vm_compute in E. discriminate E.
Defined.

(** ** More on the planner *)

Lemma convert_entry (acc : list Planner.SubQuery) (entry : Planner.json) :
  Planner.convert acc entry = acc ++ option_list (Ref.entry_sub_query entry).
Proof.
  destruct entry as [| | | | | |entries]; simpl; try by rewrite app_nil_r.
  destruct (Planner.truthy _); simpl; [done|by rewrite app_nil_r].
Qed.

Lemma convert_loop_omap (items : list Planner.json) (acc : list Planner.SubQuery) :
  fold_left Planner.convert items acc = acc ++ omap Ref.entry_sub_query items.
Proof.
  revert acc. induction items as [|e items IH]; intros acc; simpl.
  - by rewrite app_nil_r.
  - rewrite IH, convert_entry, <- app_assoc. f_equal.
    by destruct (Ref.entry_sub_query e).
Qed.

Lemma omap_length_le {A B : Type} (f : A -> option B) (l : list A) :
  (length (omap f l) ≤ length l)%nat.
Proof.
  induction l as [|x l IH]; csimpl; [lia|]. destruct (f x); csimpl; lia.
Qed.

(** X21. When the decoded data can be walked over, [plan] returns one
    sub-query for every entry that is an object with a non-empty text, in
    the order of the entries and however many there are, and the single
    fallback sub-query when there is no such entry; no sub-query taken
    from an entry has an empty text. *)
Theorem plan_lists_entries_in_order
    (loads : string -> option Planner.json) (query content : string)
    (data : Planner.json) (items : list Planner.json) :
  loads content = Some data →
  Planner.iterate (Planner.candidates data) = Some items →
  let found := omap Ref.entry_sub_query items in
  Planner.plan loads query (Planner.Content (Some content))
    = (if decide (found = []) then Planner.single query else found)
  ∧ (length found ≤ length items)%nat
  ∧ ∀ sq, sq ∈ found → Planner.truthy (Planner.text sq) = true.
Proof.
  intros Hdata Hitems. simpl. rewrite Hdata, Hitems, convert_loop_omap. simpl.
  split; [|split].
  - destruct (omap Ref.entry_sub_query items); by case_decide.
  - apply omap_length_le.
  - intros sq Hsq. apply list_elem_of_omap in Hsq as (e & _ & He).
    destruct e as [| | | | | |entries]; try done. simpl in He.
    destruct (Planner.truthy _) eqn:E; [|done].
    by injection He as <-.
Qed.

Lemma plan_lists_entries_in_order_witness :
  Planner.plan Sample.odd_loads "How do I deploy?" (Planner.Content (Some "{...}"))
    = [Planner.mkSubQuery (Planner.JStr "AWS ECS setup") (Planner.JStr "high")].
Proof.
  exact (proj1 (plan_lists_entries_in_order Sample.odd_loads "How do I deploy?" "{...}"
                  (Planner.JObj [("sub_queries", Planner.JArr [Sample.odd_priority_entry])])
                  [Sample.odd_priority_entry] eq_refl eq_refl)).
Defined.

(** ** The synthesizer *)

(** X22. The context given to the completion service is built from the
    first five chunks it is handed: chunks after the fifth never reach
    it, so for every [max_sources] of 5 or more the context built from
    [validated[:max_sources]] is the one built from [validated[:5]], also
    when more than five sources are listed. *)
Theorem build_context_uses_first_five
    (two_decimals : Q -> string) (validated : list ValidatedChunk) (max_sources : Z) :
  ((5 <= max_sources)%Z →
   Synthesizer._build_context two_decimals (Py.slice_to max_sources validated)
     = Synthesizer._build_context two_decimals (Py.slice_to 5 validated))
  ∧ ∀ later : list ValidatedChunk,
      (5 ≤ length validated)%nat →
      Synthesizer._build_context two_decimals (validated ++ later)
        = Synthesizer._build_context two_decimals validated.
Proof.
  unfold Synthesizer._build_context. split.
  - intros Hm. unfold Py.slice_to.
    assert ((0 <=? max_sources)%Z = true) as -> by (apply Z.leb_le; lia).
    simpl. rewrite take_idemp, take_take. do 3 f_equal. lia.
  - intros later Hlen. by rewrite take_app_le.
Qed.

Lemma build_context_uses_first_five_witness :
  (5 <= 10)%Z
  ∧ length (Py.slice_to 10 Cases.six_validated) = 6%nat
  ∧ length (Py.slice_to 5 Cases.six_validated) = 5%nat
  ∧ Synthesizer._build_context (fun _ => "0.90") (Py.slice_to 2 Cases.six_validated)
    ≠ Synthesizer._build_context (fun _ => "0.90") (Py.slice_to 5 Cases.six_validated)
  ∧ Synthesizer._build_context (fun _ => "0.90") (Py.slice_to 10 Cases.six_validated)
    = Synthesizer._build_context (fun _ => "0.90") (Py.slice_to 5 Cases.six_validated).
Proof.
  assert (5 <= 10)%Z as H by lia.
  split; [exact H|]. split; [reflexivity|]. split; [reflexivity|].
  split; [vm_compute; intros E; discriminate E|].
  exact (proj1 (build_context_uses_first_five (fun _ => "0.90") Cases.six_validated
                  10) H).
Defined.

(** ** The streaming endpoint *)

Lemma append_nil_r (a : string) : a +:+ "" = a.
Proof. induction a as [|c a IH]; [done|]. rewrite append_cons. by f_equal. Qed.

Lemma append_assoc (a b c : string) : (a +:+ b) +:+ c = a +:+ (b +:+ c).
Proof. induction a as [|x a IH]; [done|]. rewrite !append_cons. by f_equal. Qed.

Lemma spaceless_nil : Ref.spaceless "".
Proof. constructor. Qed.

Lemma spaceless_cons (c : ascii) (s : string) :
  Ref.spaceless (String c s) ↔ Py.is_space c = false ∧ Ref.spaceless s.
Proof.
  unfold Ref.spaceless. simpl.
  apply (Forall_cons (fun x => Py.is_space x = false)).
Qed.

Lemma spaceless_snoc (s : string) (c : ascii) :
  Ref.spaceless s → Py.is_space c = false → Ref.spaceless (s +:+ String c "").
Proof.
  intros Hs Hc. induction s as [|x s IH].
  - rewrite append_nil_l. apply spaceless_cons. split; [done|apply spaceless_nil].
  - apply spaceless_cons in Hs as [Hx Hs]. rewrite append_cons.
    apply spaceless_cons. split; [done|by apply IH].
Qed.

Lemma split_from_spaceless (w : string) :
  Ref.spaceless w →
  ∀ acc s, Py.split_from acc (w +:+ s) = Py.split_from (acc +:+ w) s.
Proof.
  induction w as [|c w IH]; intros Hw acc s.
  - by rewrite append_nil_l, append_nil_r.
  - apply spaceless_cons in Hw as [Hc Hw].
    rewrite append_cons. simpl. rewrite Hc, (IH Hw), append_assoc. done.
Qed.

Lemma split_from_words (s : string) :
  ∀ acc, Ref.spaceless acc →
         Forall (fun w => Ref.spaceless w ∧ w ≠ "") (Py.split_from acc s).
Proof.
  assert (∀ acc, Ref.spaceless acc →
                 Forall (fun w => Ref.spaceless w ∧ w ≠ "") (Py.flush acc)) as Hflush.
  { intros [|c acc] Hacc; simpl; [constructor|].
    apply Forall_cons. split; [by split|constructor]. }
  induction s as [|c s IH]; intros acc Hacc; simpl; [by apply Hflush|].
  destruct (Py.is_space c) eqn:E.
  - apply Forall_app. split; [by apply Hflush|]. apply IH, spaceless_nil.
  - apply IH. by apply spaceless_snoc.
Qed.

Lemma concat_cons (x : string) (xs : list string) :
  String.concat "" (x :: xs) = x +:+ String.concat "" xs.
Proof. destruct xs; simpl; [by rewrite append_nil_r|done]. Qed.

Lemma split_joined_payloads (ws : list string) :
  Forall (fun w => Ref.spaceless w ∧ w ≠ "") ws →
  Py.split (String.concat "" (map Main.token_payload ws)) = ws.
Proof.
  unfold Py.split. induction 1 as [|w ws [Hw Hne] _ IH]; [done|].
  cbn [map]. rewrite concat_cons. unfold Main.token_payload at 1.
  rewrite append_assoc, (split_from_spaceless w Hw), append_nil_l.
  rewrite append_cons, append_nil_l. simpl.
  rewrite IH. by destruct w.
Qed.

(** X23. A run of the stream whose pipeline call returned yields one
    token event for each word of the answer, then the sources event, the
    metadata event and the done event, in this order and nothing else;
    joined, the values of the token events split into the words of the
    answer again. A run whose pipeline call raised yields the error event
    alone. *)
Theorem stream_events
    (render_sources : list Models.Source -> string)
    (render_metadata : Models.QueryMetadata -> string)
    (result : Pipeline.RAGResult) (message : string) :
  let events :=
    Main.event_generator render_sources render_metadata (Main.Returned result) in
  let words := Py.split (Pipeline.answer result) in
  let n := length words in
  length events = (n + 3)%nat
  ∧ (∀ (i : nat) (word : string),
       words !! i = Some word →
       events !! i = Some (Main.event "token" (Main.quoted (word +:+ " "))))
  ∧ events !! n
      = Some (Main.event "sources" (render_sources (Pipeline.sources result)))
  ∧ events !! (n + 1)%nat
      = Some (Main.event "metadata" (render_metadata (Pipeline.metadata result)))
  ∧ events !! (n + 2)%nat = Some (Main.event "done" "true")
  ∧ Py.split (String.concat "" (map (fun word => word +:+ " ") words)) = words
  ∧ Main.event_generator render_sources render_metadata (Main.Raised message)
      = [Main.event "error" (Main.quoted message)].
Proof.
  simpl.
  set (words := Py.split (Pipeline.answer result)).
  assert (length (map Main.token_event words) = length words) as Hlen
    by apply length_map.
  split; [rewrite length_app, Hlen; simpl; lia|].
  split.
  { intros i word Hi. rewrite lookup_app_l by (rewrite Hlen; by eapply lookup_lt_Some).
    change (map Main.token_event words) with (Main.token_event <$> words).
    by rewrite list_lookup_fmap, Hi. }
  split; [by rewrite lookup_app_r, Hlen, Nat.sub_diag by (rewrite Hlen; lia)|].
  split.
  { rewrite lookup_app_r by (rewrite Hlen; lia). rewrite Hlen.
    by replace (length words + 1 - length words)%nat with 1%nat by lia. }
  split.
  { rewrite lookup_app_r by (rewrite Hlen; lia). rewrite Hlen.
    by replace (length words + 2 - length words)%nat with 2%nat by lia. }
  split; [|done].
  apply (split_joined_payloads words), split_from_words, spaceless_nil.
Qed.

Lemma stream_events_witness :
  let result :=
    Pipeline.mkRAGResult "Build it,  then push." []
      (Models.mkQueryMetadata 12 100 0 ["deploy"] "model") in
  let events := Main.event_generator (fun _ => "[]") (fun _ => "{}") (Main.Returned result) in
  Py.split (Pipeline.answer result) !! 1%nat = Some "it,"
  ∧ events !! 1%nat = Some (Main.event "token" (Main.quoted "it, "))
  ∧ events !! 4%nat = Some (Main.event "sources" "[]")
  ∧ events !! 5%nat = Some (Main.event "metadata" "{}")
  ∧ events !! 6%nat = Some (Main.event "done" "true").
Proof.
  intros result events.
  assert (Py.split (Pipeline.answer result) !! 1%nat = Some "it,") as H
    by (vm_compute; reflexivity).
  destruct (stream_events (fun _ => "[]") (fun _ => "{}") result "")
    as (_ & Htok & Hsrc & Hmeta & Hdone & _).
  split; [exact H|]. split; [exact (Htok 1%nat "it," H)|].
  split; [exact Hsrc|]. split; [exact Hmeta|exact Hdone].
Defined.

(** ** Ingestion *)

Lemma zip_map_fst_snd {A B : Type} (l : list (A * B)) : zip (map fst l) (map snd l) = l.
Proof. induction l as [|[a b] l IH]; simpl; [done|]. by rewrite IH. Qed.

Lemma add_paragraph_loop (doc : Main.Document) (ips : list (nat * string))
    (st : Main.Chunks) :
  let kept :=
    omap
      (fun ip : nat * string =>
         if (String.length (Main.strip ip.2) <? 50)%nat then None
         else Some (ip.2,
                    Main.mkChunkMetadata (Main.path doc)
                      (default "unknown" (Main.title doc)) ip.1))
      ips in
  fold_left (Main.add_paragraph doc) ips st
    = (st.1 ++ map fst kept, st.2 ++ map snd kept).
Proof.
  revert st. induction ips as [|[i para] ips IH]; intros [cs ms]; csimpl.
  - by rewrite !app_nil_r.
  - simpl in IH. rewrite IH.
    destruct (String.length (Main.strip para) <? 50)%nat; csimpl; [done|].
    by rewrite <- !app_assoc.
Qed.

Lemma chunk_documents_loop (documents : list Main.Document) (st : Main.Chunks) :
  fold_left Main.add_document documents st
    = (st.1 ++ map fst (flat_map Ref.eligible documents),
       st.2 ++ map snd (flat_map Ref.eligible documents)).
Proof.
  revert st. induction documents as [|doc rest IH]; intros [cs ms]; simpl.
  - by rewrite !app_nil_r.
  - assert (Main.add_document (cs, ms) doc
            = (cs ++ map fst (Ref.eligible doc), ms ++ map snd (Ref.eligible doc))) as ->.
    { unfold Main.add_document. by rewrite add_paragraph_loop. }
    rewrite IH. simpl. by rewrite !map_app, !app_assoc.
Qed.

Section UniqueLoop.

Variable md5_hex : string -> string.

Lemma unique_loop (l acc : list (string * Main.ChunkMetadata)) (seen : gset string) :
  let key := fun p : string * Main.ChunkMetadata => md5_hex (Main.strip p.1) in
  let kept := List.filter (fun p => bool_decide (key p ∉ seen)) (Spec.first_by key l) in
  fold_left (Main.unique_step md5_hex) l (seen, map fst acc, map snd acc)
    = (list_to_set (map key l) ∪ seen, map fst (acc ++ kept), map snd (acc ++ kept)).
Proof.
  simpl. set (key := fun p : string * Main.ChunkMetadata => md5_hex (Main.strip p.1)).
  pose (shadow := fun (st : list (string * Main.ChunkMetadata) * gset string)
                      (p : string * Main.ChunkMetadata) =>
                    if decide (key p ∈ st.2) then st
                    else (st.1 ++ [id p], {[key p]} ∪ st.2)).
  assert (∀ l acc seen,
            fold_left (Main.unique_step md5_hex) l (seen, map fst acc, map snd acc)
            = ((fold_left shadow l (acc, seen)).2,
               map fst (fold_left shadow l (acc, seen)).1,
               map snd (fold_left shadow l (acc, seen)).1)) as Hsim.
  { clear. intros l. induction l as [|[c m] l IH]; intros acc seen; [done|].
    cbn [fold_left].
    assert (Main.unique_step md5_hex (seen, map fst acc, map snd acc) (c, m)
            = if decide (key (c, m) ∈ seen) then (seen, map fst acc, map snd acc)
              else ({[key (c, m)]} ∪ seen, map fst (acc ++ [(c, m)]),
                    map snd (acc ++ [(c, m)]))) as ->.
    { unfold Main.unique_step, key. simpl. by rewrite !map_app. }
    assert (shadow (acc, seen) (c, m)
            = if decide (key (c, m) ∈ seen) then (acc, seen)
              else (acc ++ [(c, m)], {[key (c, m)]} ∪ seen)) as -> by done.
    destruct (decide (key (c, m) ∈ seen)); apply IH. }
  rewrite Hsim.
  rewrite (seen_loop key id shadow) by done.
  simpl. by rewrite map_id.
Qed.

Lemma prepare_chunks_kept (documents : list Main.Document) :
  let key := fun p : string * Main.ChunkMetadata => md5_hex (Main.strip p.1) in
  let kept := Spec.first_by key (flat_map Ref.eligible documents) in
  Main.prepare_chunks md5_hex documents = (map fst kept, map snd kept).
Proof.
  simpl. unfold Main.prepare_chunks, Main.chunk_documents.
  rewrite chunk_documents_loop. simpl. rewrite zip_map_fst_snd.
  rewrite (unique_loop _ [] ∅). simpl. f_equal; f_equal;
    apply bfilter_all; intros p _; apply bool_decide_eq_true_2; set_solver.
Qed.

End UniqueLoop.

Lemma first_by_covers {A : Type} (k : A -> string) (l : list A) (x : A) :
  x ∈ l → ∃ y, y ∈ Spec.first_by k l ∧ k y = k x.
Proof.
  induction l as [|h l IH]; intros Hx; [by apply elem_of_nil in Hx|]. simpl.
  apply elem_of_cons in Hx as [->|Hx]; [exists h; split; [left|done]|].
  destruct (IH Hx) as (y & Hy & Hk).
  destruct (String.eqb (k y) (k h)) eqn:E.
  - apply String.eqb_eq in E. exists h. split; [left|congruence].
  - exists y. split; [|done]. right. apply elem_of_bfilter. by rewrite E.
Qed.

Lemma eligible_elem (doc : Main.Document) (c : string) (m : Main.ChunkMetadata) :
  (c, m) ∈ Ref.eligible doc ↔
    Main.split_paragraphs (Main.doc_content doc) !! Main.cm_paragraph m = Some c
    ∧ (50 ≤ String.length (Main.strip c))%nat
    ∧ Main.cm_document m = Main.path doc
    ∧ Main.cm_section m = default "unknown" (Main.title doc).
Proof.
  unfold Ref.eligible, Main.enumerate. rewrite list_elem_of_omap. split.
  - intros ([i p] & Hip & Hsome).
    apply elem_of_lookup_imap in Hip as (j & q & [= -> ->] & Hq). simpl in Hsome.
    destruct (String.length (Main.strip q) <? 50)%nat eqn:E; [done|].
    injection Hsome as <- <-. apply Nat.ltb_ge in E. done.
  - intros (Hp & Hlen & Hdoc & Hsec). exists (Main.cm_paragraph m, c). split.
    + apply elem_of_lookup_imap. eauto.
    + simpl. apply Nat.ltb_ge in Hlen. rewrite Hlen.
      destruct m as [d s i]. simpl in *. by subst.
Qed.

Lemma flat_map_elem {A B : Type} (f : A -> list B) (l : list A) (y : B) :
  y ∈ flat_map f l ↔ ∃ x, x ∈ l ∧ y ∈ f x.
Proof.
  rewrite list_elem_of_In, in_flat_map.
  by setoid_rewrite list_elem_of_In.
Qed.

(** X24. The chunks and the metadatas prepared for the store run in
    step: there are as many of one as of the other, and the metadata at a
    position names a loaded document, the title of that document as
    section ("unknown" without a title), and the number of the paragraph
    of that document which the chunk at the same position is; that
    paragraph has at least 50 characters once stripped. *)
Theorem prepared_chunks_come_from_paragraphs
    (md5_hex : string -> string) (documents : list Main.Document) :
  let chunks := (Main.prepare_chunks md5_hex documents).1 in
  let metadatas := (Main.prepare_chunks md5_hex documents).2 in
  length chunks = length metadatas
  ∧ ∀ (i : nat) (c : string) (m : Main.ChunkMetadata),
      chunks !! i = Some c → metadatas !! i = Some m →
      ∃ doc, doc ∈ documents
             ∧ Main.cm_document m = Main.path doc
             ∧ Main.cm_section m = default "unknown" (Main.title doc)
             ∧ Main.split_paragraphs (Main.doc_content doc) !! Main.cm_paragraph m
                 = Some c
             ∧ (50 ≤ String.length (Main.strip c))%nat.
Proof.
  simpl. rewrite prepare_chunks_kept. simpl.
  set (kept := Spec.first_by _ _).
  split; [by rewrite !length_map|].
  intros i c m Hc Hm.
  assert (kept !! i = Some (c, m)) as Hi.
  { change (map fst kept) with (fst <$> kept) in Hc.
    change (map snd kept) with (snd <$> kept) in Hm.
    rewrite list_lookup_fmap in Hc. rewrite list_lookup_fmap in Hm.
    destruct (kept !! i) as [[c' m']|]; simpl in *; congruence. }
  apply list_elem_of_lookup_2, first_by_subset, flat_map_elem in Hi as (doc & Hdoc & Hin).
  apply eligible_elem in Hin as (Hp & Hlen & Hd & Hs).
  exists doc. done.
Qed.

Lemma prepared_chunks_come_from_paragraphs_witness :
  let r := Main.prepare_chunks (fun s => s) [Cases.two_paragraphs] in
  ∃ c m, r.1 !! 0%nat = Some c ∧ r.2 !! 0%nat = Some m
         ∧ Main.cm_paragraph m = 1%nat
         ∧ (50 ≤ String.length (Main.strip c))%nat.
Proof.
  intros r.
  destruct (r.1 !! 0%nat) as [c|] eqn:Ec; [|vm_compute in Ec; discriminate Ec].
  destruct (r.2 !! 0%nat) as [m|] eqn:Em; [|vm_compute in Em; discriminate Em].
  exists c, m. split; [reflexivity|]. split; [reflexivity|].
  destruct (proj2 (prepared_chunks_come_from_paragraphs (fun s => s)
                     [Cases.two_paragraphs]) 0%nat c m Ec Em)
    as (doc & _ & _ & _ & _ & Hlen).
  split; [|exact Hlen].
  vm_compute in Em. by injection Em as <-.
Defined.

(** X25. No two prepared chunks are equal once stripped of surrounding
    whitespace, whatever the hash function; and every paragraph of a
    loaded document with at least 50 characters once stripped is
    represented: a prepared chunk has the hash of its stripped text. *)
Theorem prepared_chunks_are_unique
    (md5_hex : string -> string) (documents : list Main.Document) :
  let chunks := (Main.prepare_chunks md5_hex documents).1 in
  NoDup (map Main.strip chunks)
  ∧ NoDup (map (fun c => md5_hex (Main.strip c)) chunks)
  ∧ ∀ (doc : Main.Document) (i : nat) (p : string),
      doc ∈ documents →
      Main.split_paragraphs (Main.doc_content doc) !! i = Some p →
      (50 ≤ String.length (Main.strip p))%nat →
      ∃ c, c ∈ chunks ∧ md5_hex (Main.strip c) = md5_hex (Main.strip p).
Proof.
  simpl. rewrite prepare_chunks_kept. simpl.
  set (key := fun p : string * Main.ChunkMetadata => md5_hex (Main.strip p.1)).
  set (kept := Spec.first_by key _).
  assert (NoDup (map (fun c => md5_hex (Main.strip c)) (map fst kept))) as Hnd.
  { rewrite map_map. apply (first_by_NoDup key). }
  split; [|split; [exact Hnd|]].
  - rewrite <- (map_map Main.strip md5_hex) in Hnd.
    by apply (NoDup_fmap_1 md5_hex) in Hnd.
  - intros doc i p Hdoc Hp Hlen.
    assert ((p, Main.mkChunkMetadata (Main.path doc)
                  (default "unknown" (Main.title doc)) i)
              ∈ flat_map Ref.eligible documents) as Hin.
    { apply flat_map_elem. exists doc. split; [done|]. by apply eligible_elem. }
    apply (first_by_covers key) in Hin as ([c m] & Hc & Hk).
    exists c. split; [|exact Hk].
    apply list_elem_of_fmap. by exists (c, m).
Qed.

Lemma prepared_chunks_are_unique_witness :
  let p := "Build the image with docker build and push it to the registry of the project." in
  Cases.two_paragraphs ∈ [Cases.two_paragraphs; Cases.two_paragraphs]
  ∧ Main.split_paragraphs (Main.doc_content Cases.two_paragraphs) !! 1%nat = Some p
  ∧ (50 ≤ String.length (Main.strip p))%nat
  ∧ ∃ c, c ∈ (Main.prepare_chunks (fun s => s)
                [Cases.two_paragraphs; Cases.two_paragraphs]).1
         ∧ Main.strip c = Main.strip p.
Proof.
  intros p.
  assert (Cases.two_paragraphs ∈ [Cases.two_paragraphs; Cases.two_paragraphs]) as H1
    by left.
  assert (Main.split_paragraphs (Main.doc_content Cases.two_paragraphs) !! 1%nat
            = Some p) as H2 by (vm_compute; reflexivity).
  assert (50 ≤ String.length (Main.strip p))%nat as H3 by (vm_compute; lia).
  split; [exact H1|]. split; [exact H2|]. split; [exact H3|].
  exact (proj2 (proj2 (prepared_chunks_are_unique (fun s => s)
                         [Cases.two_paragraphs; Cases.two_paragraphs]))
           Cases.two_paragraphs 1%nat p H1 H2 H3).
Defined.

(** ** Deduplication of the validated list *)

Lemma bfilter_sublist {A : Type} (p : A -> bool) (l : list A) :
  List.filter p l `sublist_of` l.
Proof.
  induction l as [|x l IH]; simpl; [done|].
  destruct (p x); [by apply sublist_skip|by apply sublist_cons].
Qed.

Lemma first_by_sublist {A : Type} (k : A -> string) (l : list A) :
  Spec.first_by k l `sublist_of` l.
Proof.
  induction l as [|x l IH]; simpl; [done|].
  apply sublist_skip. etrans; [apply bfilter_sublist|exact IH].
Qed.

(** X26. [_deduplicate_validated] returns a sub-list of its argument, in
    the same order, in which no [chunk_id] occurs twice and every
    [chunk_id] of the argument still occurs; a list without duplicate ids
    is returned unchanged, so deduplicating twice changes nothing
    more. *)
Theorem deduplicate_validated_properties (validated : list ValidatedChunk) :
  let unique := Pipeline._deduplicate_validated validated in
  unique `sublist_of` validated
  ∧ NoDup (map Spec.underlying_id unique)
  ∧ (∀ vc, vc ∈ validated →
           ∃ kept, kept ∈ unique ∧ Spec.underlying_id kept = Spec.underlying_id vc)
  ∧ (NoDup (map Spec.underlying_id validated) → unique = validated)
  ∧ Pipeline._deduplicate_validated unique = unique.
Proof.
  simpl. rewrite !dedup_first_by.
  split; [apply first_by_sublist|].
  split; [apply first_by_NoDup|].
  split; [intros vc Hvc; by apply first_by_covers|].
  split; [apply first_by_id|].
  apply first_by_id, first_by_NoDup.
Qed.

Lemma deduplicate_validated_properties_witness :
  let vc := mkValidatedChunk Sample.docker_chunk (7 # 10) "Moderate" in
  vc ∈ [vc; vc]
  ∧ NoDup (map Spec.underlying_id [vc])
  ∧ Pipeline._deduplicate_validated [vc] = [vc]
  ∧ ∃ kept, kept ∈ Pipeline._deduplicate_validated [vc; vc]
            ∧ Spec.underlying_id kept = Spec.underlying_id vc.
Proof.
  intros vc.
  assert (vc ∈ [vc; vc]) as H1 by left.
  assert (NoDup (map Spec.underlying_id [vc])) as H2
    by (apply NoDup_singleton).
  split; [exact H1|]. split; [exact H2|]. split.
  - exact (proj1 (proj2 (proj2 (proj2 (deduplicate_validated_properties [vc])))) H2).
  - exact (proj1 (proj2 (proj2 (deduplicate_validated_properties [vc; vc]))) vc H1).
Defined.

(** ** The document loader *)

Lemma lstrip_hashes_length (s : string) :
  (String.length (DocumentLoader.lstrip_hashes s) ≤ String.length s)%nat.
Proof.
  induction s as [|c s IH]; simpl; [lia|].
  destruct (DocumentLoader.is_hash c); simpl; lia.
Qed.

Lemma heading_starts_with_hash (line : string) :
  DocumentLoader.is_heading line = String.prefix "#" line.
Proof.
  unfold DocumentLoader.is_heading.
  destruct line as [|[[] [] [] [] [] [] [] []] rest]; try reflexivity.
  by destruct rest.
Qed.

Lemma heading_level (line : string) :
  DocumentLoader.is_heading line = true →
  (1 ≤ String.length line - String.length (DocumentLoader.lstrip_hashes line))%nat.
Proof.
  rewrite heading_starts_with_hash.
  destruct line as [|[[] [] [] [] [] [] [] []] rest]; try (intros H; discriminate H).
  intros _. pose proof (lstrip_hashes_length rest) as Hle.
  change (DocumentLoader.lstrip_hashes (String "#" rest))
    with (DocumentLoader.lstrip_hashes rest).
  simpl. lia.
Qed.

(** X27. Every section [read_markdown_file] records has a content that
    is not blank; its level, when it has one, is at least 1, and only a
    section titled "Introduction" is without a level. A heading that is
    followed by no text before the next heading leaves no section. *)
Theorem sections_are_not_blank (content : string) (s : DocumentLoader.Section_) :
  s ∈ DocumentLoader.sections_of content →
  DocumentLoader.non_blank (DocumentLoader.sec_content s) = true
  ∧ (∀ n, DocumentLoader.sec_level s = Some n → (1 ≤ n)%nat)
  ∧ (DocumentLoader.sec_level s = None → DocumentLoader.sec_title s = "Introduction").
Proof.
  set (levelled := fun x : DocumentLoader.Section_ =>
         (∀ n, DocumentLoader.sec_level x = Some n → (1 ≤ n)%nat)
         ∧ (DocumentLoader.sec_level x = None
            → DocumentLoader.sec_title x = "Introduction")).
  set (good := fun x : DocumentLoader.Section_ =>
         DocumentLoader.non_blank (DocumentLoader.sec_content x) = true ∧ levelled x).
  assert (∀ lines sections current,
            Forall good sections → levelled current →
            Forall good (fold_left DocumentLoader.scan lines (sections, current)).1
            ∧ levelled (fold_left DocumentLoader.scan lines (sections, current)).2)
    as Hloop.
  { induction lines as [|line lines IH]; intros sections current Hs Hc; [done|].
    cbn [fold_left]. unfold DocumentLoader.scan at 2 4.
    destruct (DocumentLoader.is_heading line) eqn:E.
    - apply IH.
      + destruct (DocumentLoader.non_blank _) eqn:Eb; [|done].
        apply Forall_app. split; [done|].
        apply Forall_cons. split; [by split|constructor].
      + split; simpl; [|done]. intros n [= <-]. by apply heading_level.
    - apply IH; [done|]. exact Hc. }
  unfold DocumentLoader.sections_of.
  destruct (Hloop (DocumentLoader.split_lines content) []
              (DocumentLoader.mkSection "Introduction" "" None)) as [Hs Hc].
  { constructor. }
  { split; [done|done]. }
  destruct (fold_left _ _ _) as [sections current]. simpl in Hs, Hc.
  intros Hin.
  assert (good s) as [Hb Hl]; [|by destruct Hl].
  rewrite Forall_forall in Hs.
  destruct (DocumentLoader.non_blank (DocumentLoader.sec_content current)) eqn:Eb.
  - apply elem_of_app in Hin as [Hin|Hin]; [by apply Hs|].
    apply list_elem_of_singleton in Hin as ->. by split.
  - by apply Hs.
Qed.

Lemma sections_are_not_blank_witness :
  let s := DocumentLoader.mkSection "Tags"
             ("Tag it, then push it." +:+ Synthesizer.nl) (Some 3%nat) in
  s ∈ DocumentLoader.sections_of Cases.markdown
  ∧ DocumentLoader.non_blank (DocumentLoader.sec_content s) = true.
Proof.
  intros s.
  assert (s ∈ DocumentLoader.sections_of Cases.markdown) as H
    by (vm_compute; right; left).
  split; [exact H|].
  exact (proj1 (sections_are_not_blank Cases.markdown s H)).
Defined.

Lemma lines_round_trip (s line : string) :
  String.concat "" (map (fun l => l +:+ Synthesizer.nl)
                      (DocumentLoader.split_lines_from line s))
    = line +:+ s +:+ Synthesizer.nl.
Proof.
  revert line. induction s as [|c s IH]; intros line.
  - simpl. by rewrite append_nil_l.
  - cbn [DocumentLoader.split_lines_from].
    destruct (Main.is_nl c) eqn:E.
    + cbn [map]. rewrite concat_cons, IH, append_nil_l.
      apply Ascii.eqb_eq in E. subst c. by rewrite append_assoc.
    + rewrite IH, append_assoc. done.
Qed.

Lemma scan_plain (lines : list string) (sections : list DocumentLoader.Section_)
    (current : DocumentLoader.Section_) :
  (∀ line, line ∈ lines → String.prefix "#" line = false) →
  fold_left DocumentLoader.scan lines (sections, current)
    = (sections,
       DocumentLoader.mkSection (DocumentLoader.sec_title current)
         (DocumentLoader.sec_content current
            +:+ String.concat "" (map (fun l => l +:+ Synthesizer.nl) lines))
         (DocumentLoader.sec_level current)).
Proof.
  revert current. induction lines as [|line lines IH]; intros current Hplain.
  - simpl. rewrite append_nil_r. by destruct current.
  - cbn [fold_left map]. unfold DocumentLoader.scan at 2.
    rewrite heading_starts_with_hash, (Hplain line) by left.
    rewrite IH by (intros l Hl; apply Hplain; by right).
    cbn [DocumentLoader.sec_title DocumentLoader.sec_content DocumentLoader.sec_level].
    by rewrite concat_cons, !append_assoc.
Qed.

(** X28. A line is taken as a heading exactly when it starts with '#':
    the test for a code fence never changes the outcome. A content in
    which no line starts with '#' gives the single section
    "Introduction", holding the content and a final newline, or no
    section at all when the content is blank. *)
Theorem sections_without_headings (content : string) :
  (∀ line, DocumentLoader.is_heading line = String.prefix "#" line)
  ∧ ((∀ line, line ∈ DocumentLoader.split_lines content →
              String.prefix "#" line = false) →
     DocumentLoader.sections_of content
       = if DocumentLoader.non_blank (content +:+ Synthesizer.nl)
         then [DocumentLoader.mkSection "Introduction"
                 (content +:+ Synthesizer.nl) None]
         else []).
Proof.
  split; [apply heading_starts_with_hash|]. intros Hplain.
  unfold DocumentLoader.sections_of. rewrite scan_plain by done.
  unfold DocumentLoader.split_lines. rewrite lines_round_trip. simpl.
  by rewrite !append_nil_l.
Qed.

Lemma sections_without_headings_witness :
  (∀ line, line ∈ DocumentLoader.split_lines "plain text" →
           String.prefix "#" line = false)
  ∧ DocumentLoader.sections_of "plain text"
    = [DocumentLoader.mkSection "Introduction" ("plain text" +:+ Synthesizer.nl) None].
Proof.
  assert (∀ line, line ∈ DocumentLoader.split_lines "plain text" →
                  String.prefix "#" line = false) as H.
  { intros line Hl. vm_compute in Hl. apply list_elem_of_singleton in Hl as ->. done. }
  split; [exact H|].
  exact (proj2 (sections_without_headings "plain text") H).
Defined.
